(** * tally: configuration migrations (src/tally/migrations.py)

    A shallow embedding of the migration engine of the tally CLI:
    schema-version tracking ([get_schema_version]), the migration
    pipeline ([run_migrations]), the layout migration
    ([migrate_v0_to_v1]), the CSV to .rules conversion
    ([migrate_csv_to_rules]) and the rule-source resolver
    ([check_merchant_migration]).

    The Python code is effectful: it reads and writes files, moves
    directories, prompts on the terminal and catches exceptions.  The
    embedding threads an explicit [world] (file system, terminal, a fault
    oracle for I/O errors) through a small state-and-exception monad, so
    that every [try]/[except] of the source is a [try_except] here. *)

From Stdlib Require Import ZArith Ascii List Bool Lia.
From Stdlib Require String.
From stdpp Require Import base option gmap strings list.

Local Open Scope Z_scope.

(** ** Text: the [str] methods the source calls *)

Module Str.

(** Line feed and the double quote, which string literals here do not
    spell directly. *)
Definition nl : string := String "010" "".
Definition dq : string := String "034" "".
Definition esc : string := String "027" "".

(** [str.startswith]. *)
Fixpoint startswith (p s : string) : bool :=
  match p, s with
  | EmptyString, _ => true
  | String a p', String b s' => if Ascii.eqb a b then startswith p' s' else false
  | String _ _, EmptyString => false
  end.

(** [sub in s]: substring test. *)
Fixpoint contains (sub s : string) : bool :=
  startswith sub s ||
  match s with
  | EmptyString => false
  | String _ s' => contains sub s'
  end.

(** Number of positions of [s] at which [sub] occurs. *)
Fixpoint occurrences (sub s : string) : nat :=
  ((if startswith sub s then 1 else 0) +
   match s with
   | EmptyString => 0
   | String _ s' => occurrences sub s'
   end)%nat.

(** Whitespace for [str.strip()], on the ASCII range: TAB, LF, VT, FF,
    CR, FS, GS, RS, US and the space. *)
Definition is_space (c : ascii) : bool :=
  let n := nat_of_ascii c in
  ((9 <=? n) && (n <=? 13) || (28 <=? n) && (n <=? 32))%nat.

Fixpoint lstrip (s : string) : string :=
  match s with
  | String c s' => if is_space c then lstrip s' else s
  | EmptyString => EmptyString
  end.

Fixpoint rstrip (s : string) : string :=
  match s with
  | EmptyString => EmptyString
  | String c s' =>
      match rstrip s' with
      | EmptyString => if is_space c then EmptyString else String c EmptyString
      | t => String c t
      end
  end.

Definition strip (s : string) : string := rstrip (lstrip s).

(** A string is a sequence of bytes, the UTF-8 encoding of the text.  On
    text that is not ASCII the [str] methods above and [int] below do more
    than is modelled here ([str.strip] and [int] also drop the blanks of
    Unicode, [int] also reads the decimal digits of other scripts, and
    [str.lower] lowers other letters): what depends on how a text is
    classified is stated for ASCII text. *)
Definition is_ascii_char (c : ascii) : bool := (nat_of_ascii c <? 128)%nat.

Fixpoint is_ascii (s : string) : bool :=
  match s with
  | EmptyString => true
  | String c s' => is_ascii_char c && is_ascii s'
  end.

(** The blanks [int] skips around an ASCII numeral: TAB, LF, VT, FF, CR
    and the space, but not FS, GS, RS and US. *)
Definition is_int_space (c : ascii) : bool :=
  let n := nat_of_ascii c in
  ((9 <=? n) && (n <=? 13) || (n =? 32))%nat.

Fixpoint lstrip_by (p : ascii -> bool) (s : string) : string :=
  match s with
  | String c s' => if p c then lstrip_by p s' else s
  | EmptyString => EmptyString
  end.

Fixpoint rstrip_by (p : ascii -> bool) (s : string) : string :=
  match s with
  | EmptyString => EmptyString
  | String c s' =>
      match rstrip_by p s' with
      | EmptyString => if p c then EmptyString else String c EmptyString
      | t => String c t
      end
  end.

Definition int_strip (s : string) : string :=
  rstrip_by is_int_space (lstrip_by is_int_space s).

(** [str.lower()], on the ASCII range. *)
Definition lower_char (c : ascii) : ascii :=
  let n := nat_of_ascii c in
  if ((65 <=? n) && (n <=? 90))%nat then ascii_of_nat (n + 32) else c.

Fixpoint lower (s : string) : string :=
  match s with
  | EmptyString => EmptyString
  | String c s' => String (lower_char c) (lower s')
  end.

Fixpoint prefix_n (n : nat) (s : string) : string :=
  match n, s with
  | S n', String c s' => String c (prefix_n n' s')
  | _, _ => EmptyString
  end.

Definition is_digit (c : ascii) : bool :=
  let n := nat_of_ascii c in ((48 <=? n) && (n <=? 57))%nat.

Definition digit_value (c : ascii) : Z := Z.of_nat (nat_of_ascii c) - 48.

(** The digits of a Python decimal literal: digits, single underscores
    allowed between two digits. *)
Fixpoint parse_digits (s : string) (acc : Z) (after_digit : bool) : option Z :=
  match s with
  | EmptyString => if after_digit then Some acc else None
  | String c s' =>
      if is_digit c then parse_digits s' (10 * acc + digit_value c) true
      else if Ascii.eqb c "_" && after_digit then parse_digits s' acc false
      else None
  end.

(** [int(s)] with the default base 10: surrounding blanks, an optional
    sign, then the digits.  [None] stands for [ValueError].  This is what
    [int] does on ASCII text whose numeral is within the interpreter's
    limit on the number of digits; beyond the limit [int] raises
    [ValueError], which is not modelled. *)
Definition py_int (s : string) : option Z :=
  match int_strip s with
  | String "-" r => Z.opp <$> parse_digits r 0 false
  | String "+" r => parse_digits r 0 false
  | t => parse_digits t 0 false
  end.

(** The default of [sys.int_max_str_digits]. *)
Definition int_max_str_digits : nat := 4300.

(** Text on which [int] and the [str] methods are modelled exactly: ASCII,
    and too short to hold a numeral beyond the limit. *)
Definition plain (s : string) : bool :=
  is_ascii s && (String.length s <=? int_max_str_digits)%nat.

(** [str(n)] for a length. *)
Fixpoint digits_of_pos (fuel : nat) (n : nat) (acc : string) : string :=
  match fuel with
  | O => acc
  | S fuel' =>
      let d := String (ascii_of_nat (48 + n mod 10)) acc in
      if (n <? 10)%nat then d else digits_of_pos fuel' (n / 10) d
  end.

Definition of_nat (n : nat) : string := digits_of_pos (S n) n "".

End Str.

(** ** Paths: [posixpath] *)

Module Path.

Definition sep : ascii := "/".

(** [posixpath.split]: the part up to and including the last slash, and
    what follows it. *)
Fixpoint split_last (p : string) : string * string :=
  match p with
  | EmptyString => ("", "")
  | String c r =>
      let '(h, t) := split_last r in
      match h with
      | EmptyString => if Ascii.eqb c sep then (String c "", t) else ("", String c t)
      | _ => (String c h, t)
      end
  end.

Fixpoint rstrip_sep (s : string) : string :=
  match s with
  | EmptyString => EmptyString
  | String c s' =>
      match rstrip_sep s' with
      | EmptyString => if Ascii.eqb c sep then EmptyString else String c EmptyString
      | t => String c t
      end
  end.

Fixpoint all_sep (s : string) : bool :=
  match s with
  | EmptyString => true
  | String c s' => Ascii.eqb c sep && all_sep s'
  end.

Fixpoint ends_with_sep (s : string) : bool :=
  match s with
  | EmptyString => false
  | String c EmptyString => Ascii.eqb c sep
  | String _ s' => ends_with_sep s'
  end.

(** [os.path.basename(p)]: [p[p.rfind('/') + 1:]]. *)
Definition basename (p : string) : string := snd (split_last p).

(** [os.path.dirname(p)]: the head, without its trailing slashes unless it
    is made of slashes only. *)
Definition dirname (p : string) : string :=
  let head := fst (split_last p) in
  if all_sep head then head else rstrip_sep head.

(** [os.path.join(a, b)] for two arguments. *)
Definition join (a b : string) : string :=
  if Str.startswith "/" b then b
  else match a with
       | EmptyString => b
       | _ => if ends_with_sep a then a +:+ b else a +:+ "/" +:+ b
       end.

(** [shutil._basename]: the base name once trailing slashes are gone. *)
Definition shutil_basename (p : string) : string := basename (rstrip_sep p).

End Path.

(** ** The world the program runs in *)

(** Exceptions, by the classes the source's [except] clauses name.
    [shutil.Error] is a subclass of [OSError] (of which [IOError] is an
    alias), [UnicodeDecodeError] one of [ValueError]; [KeyboardInterrupt]
    is the only one here that is not an [Exception]. *)
Inductive exn : Type :=
  | OSError (msg : string)
  | ShutilError (msg : string)
  | ValueError (msg : string)
  | EOFError
  | KeyboardInterrupt
  | OtherException (msg : string).

Definition is_OSError (e : exn) : bool :=
  match e with OSError _ | ShutilError _ => true | _ => false end.

Definition is_ValueError (e : exn) : bool :=
  match e with ValueError _ => true | _ => false end.

Definition is_EOFError (e : exn) : bool :=
  match e with EOFError => true | _ => false end.

Definition is_KeyboardInterrupt (e : exn) : bool :=
  match e with KeyboardInterrupt => true | _ => false end.

Definition is_Exception (e : exn) : bool :=
  match e with KeyboardInterrupt => false | _ => true end.

(** [str(e)]. *)
Definition exn_str (e : exn) : string :=
  match e with
  | OSError m | ShutilError m | ValueError m | OtherException m => m
  | EOFError | KeyboardInterrupt => ""
  end.

(** What a path names.  A file holds text, or bytes that do not decode as
    UTF-8. *)
Inductive file_data : Type :=
  | Text (s : string)
  | NotUtf8.

Inductive node : Type :=
  | File (d : file_data)
  | Dir.

(** One line typed at the terminal, end of input, or Ctrl-C. *)
Inductive input_event : Type :=
  | Line (s : string)
  | Eof
  | Interrupt.

(** The mutations of the file system the program has carried out, oldest
    first. *)
Inductive fs_op : Type :=
  | OpMkdir (p : string)
  | OpRename (src dst : string)
  | OpTruncate (p : string)
  | OpWrite (p : string) (s : string).

(** The file system maps a path to what it names; a path string is taken
    as the name of one object (no links, no second spelling of a path).
    [faults] is the environment's say on each fallible system call, in the
    order the calls are made: [None] lets the call through, [Some n] makes
    it fail with an [OSError], a write after [n] characters have reached
    the file.  When the list runs out no further fault is injected. *)
Record world : Type := World {
  fs : gmap string node;
  fs_log : list fs_op;
  cwd : string;
  environ : gmap string string;
  stdin_tty : bool;
  stdout_tty : bool;
  stdin : list input_event;
  faults : list (option nat);
  stdout : list string;
  stderr : list string
}.

Definition set_fs (m : gmap string node) (op : fs_op) (w : world) : world :=
  World m (fs_log w ++ [op]) (cwd w) (environ w) (stdin_tty w) (stdout_tty w)
        (stdin w) (faults w) (stdout w) (stderr w).

Definition set_stdin (i : list input_event) (w : world) : world :=
  World (fs w) (fs_log w) (cwd w) (environ w) (stdin_tty w) (stdout_tty w)
        i (faults w) (stdout w) (stderr w).

Definition set_faults (f : list (option nat)) (w : world) : world :=
  World (fs w) (fs_log w) (cwd w) (environ w) (stdin_tty w) (stdout_tty w)
        (stdin w) f (stdout w) (stderr w).

Definition add_stdout (s : string) (w : world) : world :=
  World (fs w) (fs_log w) (cwd w) (environ w) (stdin_tty w) (stdout_tty w)
        (stdin w) (faults w) (stdout w ++ [s]) (stderr w).

Definition add_stderr (s : string) (w : world) : world :=
  World (fs w) (fs_log w) (cwd w) (environ w) (stdin_tty w) (stdout_tty w)
        (stdin w) (faults w) (stdout w) (stderr w ++ [s]).

(** ** A state-and-exception monad *)

Inductive result (A : Type) : Type :=
  | Ok (a : A)
  | Raise (e : exn).

Arguments Ok {A} a.
Arguments Raise {A} e.

Definition M (A : Type) : Type := world -> result A * world.

Definition ret {A} (a : A) : M A := fun w => (Ok a, w).

Definition raise {A} (e : exn) : M A := fun w => (Raise e, w).

Definition bind {A B} (m : M A) (k : A -> M B) : M B :=
  fun w =>
    match m w with
    | (Ok a, w') => k a w'
    | (Raise e, w') => (Raise e, w')
    end.

(** [try: m except <classes>: handler]. *)
Definition try_except {A} (m : M A) (classes : exn -> bool) (handler : exn -> M A) : M A :=
  fun w =>
    match m w with
    | (Ok a, w') => (Ok a, w')
    | (Raise e, w') => if classes e then handler e w' else (Raise e, w')
    end.

Declare Scope py_scope.
Delimit Scope py_scope with py.
Bind Scope py_scope with M.

Notation "'let*' x ':=' m 'in' k" := (bind m (fun x => k))
  (at level 10, x name, m at level 100, k at level 200) : py_scope.
Notation "m ';;;' k" := (bind m (fun _ => k))
  (at level 100, k at level 200, right associativity) : py_scope.

Local Open Scope py_scope.

(** [for x in xs: body]. *)
Fixpoint for_each {A} (xs : list A) (body : A -> M unit) : M unit :=
  match xs with
  | [] => ret tt
  | x :: xs' => body x ;;; for_each xs' body
  end.

(** Reading the world. *)
Definition get_world : M world := fun w => (Ok w, w).

(** The environment's decision on the next fallible call. *)
Definition next_fault : M (option nat) :=
  fun w =>
    match faults w with
    | [] => (Ok None, w)
    | f :: rest => (Ok f, set_faults rest w)
    end.

(** ** System calls *)

Definition is_dir (m : gmap string node) (p : string) : bool :=
  match m !! p with Some Dir => true | _ => false end.

Definition path_exists (m : gmap string node) (p : string) : bool :=
  match m !! p with Some _ => true | None => false end.

(** [os.path.exists], [os.path.isdir], [os.getcwd], [isatty]: none of them
    raises. *)
Definition os_path_exists (p : string) : M bool := fun w => (Ok (path_exists (fs w) p), w).
Definition os_path_isdir (p : string) : M bool := fun w => (Ok (is_dir (fs w) p), w).
Definition os_getcwd : M string := fun w => (Ok (cwd w), w).
Definition sys_stdin_isatty : M bool := fun w => (Ok (stdin_tty w), w).
Definition sys_stdout_isatty : M bool := fun w => (Ok (stdout_tty w), w).

(** [os.path.abspath(name)] for a bare name: [normpath(join(getcwd(),
    name))], and [getcwd()] is already normal. *)
Definition os_path_abspath (name : string) : M string :=
  fun w => (Ok (Path.join (cwd w) name), w).

(** [print(s)], [print(s, file=sys.stderr)]. *)
Definition print (s : string) : M unit := fun w => (Ok tt, add_stdout s w).
Definition print_err (s : string) : M unit := fun w => (Ok tt, add_stderr s w).

(** [input(prompt)]: shows the prompt and reads a line; [EOFError] at end
    of input, [KeyboardInterrupt] on Ctrl-C. *)
Definition input (prompt : string) : M string :=
  fun w =>
    let w1 := add_stdout prompt w in
    match stdin w1 with
    | [] => (Raise EOFError, w1)
    | Eof :: rest => (Raise EOFError, set_stdin rest w1)
    | Interrupt :: rest => (Raise KeyboardInterrupt, set_stdin rest w1)
    | Line s :: rest => (Ok s, set_stdin rest w1)
    end.

(** [with open(p, encoding='utf-8') as f: f.read()]. *)
Definition read_text (p : string) : M string :=
  let* f := next_fault in
  match f with
  | Some _ => raise (OSError "I/O error")
  | None =>
      let* w := get_world in
      match fs w !! p with
      | None => raise (OSError "No such file or directory")
      | Some Dir => raise (OSError "Is a directory")
      | Some (File NotUtf8) => raise (ValueError "invalid utf-8")
      | Some (File (Text s)) => ret s
      end
  end.

(** [open(p, 'w')]: creates the file or empties it. *)
Definition open_write (p : string) : M unit :=
  let* f := next_fault in
  match f with
  | Some _ => raise (OSError "I/O error")
  | None =>
      fun w =>
        if is_dir (fs w) p then (Raise (OSError "Is a directory"), w)
        else (Ok tt, set_fs (<[p := File (Text "")]> (fs w)) (OpTruncate p) w)
  end.

(** [open(p, 'a')]: creates the file when there is none, keeps what it
    holds otherwise. *)
Definition open_append (p : string) : M unit :=
  let* f := next_fault in
  match f with
  | Some _ => raise (OSError "I/O error")
  | None =>
      fun w =>
        match fs w !! p with
        | Some Dir => (Raise (OSError "Is a directory"), w)
        | Some (File _) => (Ok tt, w)
        | None => (Ok tt, set_fs (<[p := File (Text "")]> (fs w)) (OpTruncate p) w)
        end
  end.

Definition append_data (d : file_data) (s : string) : file_data :=
  match d with
  | Text t => Text (t +:+ s)
  | NotUtf8 => NotUtf8
  end.

(** [f.write(s)] on a file opened at [p] for writing or appending: [s]
    goes to the end of the file; a fault leaves only a prefix of [s]
    there. *)
Definition write_str (p : string) (s : string) : M unit :=
  let* f := next_fault in
  fun w =>
    let written := match f with None => s | Some n => Str.prefix_n n s end in
    let w' :=
      match fs w !! p with
      | Some (File d) => set_fs (<[p := File (append_data d written)]> (fs w)) (OpWrite p written) w
      | _ => w
      end in
    match f with
    | None => (Ok tt, w')
    | Some _ => (Raise (OSError "I/O error"), w')
    end.

(** [with open(p, 'w', encoding='utf-8') as f: f.write(s)]. *)
Definition write_file (p : string) (s : string) : M unit :=
  open_write p ;;;
  write_str p s.

(** [os.makedirs(p, exist_ok=True)] for a directory whose parent is the
    working directory. *)
Definition os_makedirs (p : string) : M unit :=
  let* f := next_fault in
  match f with
  | Some _ => raise (OSError "I/O error")
  | None =>
      fun w =>
        match fs w !! p with
        | Some Dir => (Ok tt, w)
        | Some (File _) => (Raise (OSError "File exists"), w)
        | None => (Ok tt, set_fs (<[p := Dir]> (fs w)) (OpMkdir p) w)
        end
  end.

(** Renaming [src] to [dst] moves what [src] names and, for a directory,
    everything below it. *)
Definition rekey (src dst p : string) : string :=
  if String.eqb p src then dst
  else if Str.startswith (src +:+ "/") p
       then dst +:+ String.substring (String.length src) (String.length p - String.length src) p
       else p.

Definition fs_rename (src dst : string) (m : gmap string node) : gmap string node :=
  match m !! src with
  | Some (File d) => <[dst := File d]> (delete src m)
  | Some Dir =>
      list_to_map (List.map (fun pn => (rekey src dst (fst pn), snd pn)) (map_to_list m))
  | None => m
  end.

(** [shutil.move(src, dst)].  An existing directory [dst] receives [src]
    under its own base name, unless that name is taken; otherwise [src] is
    renamed to [dst].  A fault fails the move as a whole. *)
Definition shutil_real_dst (m : gmap string node) (src dst : string) : exn + string :=
  if is_dir m dst then
    if String.eqb src dst then inr dst
    else
      let real_dst := Path.join dst (Path.shutil_basename src) in
      if path_exists m real_dst
      then inl (ShutilError "Destination path already exists")
      else inr real_dst
  else inr dst.

Definition shutil_move (src dst : string) : M unit :=
  let* w0 := get_world in
  match shutil_real_dst (fs w0) src dst with
  | inl e => raise e
  | inr real_dst =>
      let* f := next_fault in
      match f with
      | Some _ => raise (OSError "I/O error")
      | None =>
          fun w =>
            match fs w !! src with
            | None => (Raise (OSError "No such file or directory"), w)
            | Some n =>
                if String.eqb src real_dst then (Ok tt, w)
                else
                  match n with
                  | Dir =>
                      if Str.startswith (src +:+ "/") real_dst
                      then (Raise (ShutilError "Cannot move a directory into itself"), w)
                      else if path_exists (fs w) real_dst
                      then (Raise (OSError "File exists"), w)
                      else (Ok tt, set_fs (fs_rename src real_dst (fs w)) (OpRename src real_dst) w)
                  | File _ =>
                      (Ok tt, set_fs (fs_rename src real_dst (fs w)) (OpRename src real_dst) w)
                  end
            end
      end
  end.

(** ** Terminal colours (src/tally/colors.py) *)

Record Colors : Type := {
  RESET : string; BOLD : string; DIM : string; GREEN : string; CYAN : string;
  BLUE : string; YELLOW : string; RED : string; UNDERLINE : string
}.

(** Truth value of [os.environ.get(name)]: set and not empty. *)
Definition env_truthy (w : world) (name : string) : bool :=
  match environ w !! name with
  | Some (String _ _) => true
  | _ => false
  end.

Definition supports_color (w : world) : bool :=
  if negb (stdout_tty w) then false
  else if env_truthy w "NO_COLOR" then false
  else if env_truthy w "FORCE_COLOR" then true
  else negb (String.eqb (default "" (environ w !! "TERM")) "dumb").

Definition Colors_init (w : world) : Colors :=
  if supports_color w then
    {| RESET := Str.esc +:+ "[0m"; BOLD := Str.esc +:+ "[1m"; DIM := Str.esc +:+ "[2m";
       GREEN := Str.esc +:+ "[32m"; CYAN := Str.esc +:+ "[36m"; BLUE := Str.esc +:+ "[34m";
       YELLOW := Str.esc +:+ "[33m"; RED := Str.esc +:+ "[31m"; UNDERLINE := Str.esc +:+ "[4m" |}
  else
    {| RESET := ""; BOLD := ""; DIM := ""; GREEN := ""; CYAN := ""; BLUE := "";
       YELLOW := ""; RED := ""; UNDERLINE := "" |}.

(** The singleton [C]; the terminal and the environment do not change
    while the program runs, so it is read off the current world. *)
Definition the_colors : M Colors := fun w => (Ok (Colors_init w), w).

(** ** The collaborators

    [load_merchant_rules], [csv_to_merchants_content] and [get_all_rules]
    belong to other modules of the package.  They are taken as an
    interface: each reads the file system and either returns or raises
    some [Exception], of which only the message is kept. *)

Inductive outcome (A : Type) : Type :=
  | Returned (a : A)
  | Failed (msg : string).

Arguments Returned {A} a.
Arguments Failed {A} msg.

Class Collaborators : Type := {
  rule : Type;
  load_merchant_rules : gmap string node -> string -> outcome (list rule);
  csv_to_merchants_content : list rule -> outcome string;
  get_all_rules : gmap string node -> option string -> string -> outcome (list rule)
}.

Definition call {A} (f : gmap string node -> outcome A) : M A :=
  fun w =>
    match f (fs w) with
    | Returned a => (Ok a, w)
    | Failed msg => (Raise (OtherException msg), w)
    end.

(** ** Schema version *)

Definition SCHEMA_VERSION : Z := 1.

Definition get_schema_version (config_dir : string) : M Z :=
  let schema_file := Path.join config_dir ".tally-schema" in
  let* present := os_path_exists schema_file in
  if present then
    try_except
      (let* text := read_text schema_file in
       match Str.py_int (Str.strip text) with
       | Some v => ret v
       | None => raise (ValueError "invalid literal for int()")
       end)
      (fun e => is_ValueError e || is_OSError e)
      (fun _ => ret 0)
  else ret 0.

(** ** Layout migration, v0 to v1 *)

(** Lines 100-113: create ./tally, move config/ into it, then data/ and
    output/ where they exist.  Returns the new configuration directory. *)
Definition move_into_namespace (old_config_dir tally_dir : string) : M string :=
  os_makedirs tally_dir ;;;
  let new_config := Path.join tally_dir "config" in
  print "  Moving config/ -> tally/config/" ;;;
  shutil_move old_config_dir new_config ;;;
  for_each ["data"; "output"] (fun subdir =>
    let* old_path := os_path_abspath subdir in
    let* there := os_path_isdir old_path in
    if there then
      let new_path := Path.join tally_dir subdir in
      print ("  Moving " +:+ subdir +:+ "/ -> tally/" +:+ subdir +:+ "/") ;;;
      shutil_move old_path new_path
    else ret tt) ;;;
  ret new_config.

(** Lines 116-118: the schema marker. *)
Definition write_schema_marker (new_config : string) : M unit :=
  let schema_file := Path.join new_config ".tally-schema" in
  write_file schema_file ("1" +:+ Str.nl).

(** Lines 97-125: the migration proper, inside its [try]. *)
Definition perform_layout_migration (old_config_dir : string) : M (option string) :=
  let* tally_dir := os_path_abspath "tally" in
  try_except
    (let* new_config := move_into_namespace old_config_dir tally_dir in
     write_schema_marker new_config ;;;
     print "✓ Migrated to ./tally/" ;;;
     ret (Some new_config))
    is_OSError
    (fun e =>
       print_err ("Error during migration: " +:+ exn_str e) ;;;
       ret None).

Definition migrate_v0_to_v1 (old_config_dir : string) (skip_confirm : bool)
  : M (option string) :=
  if negb (String.eqb (Path.basename old_config_dir) "config") then ret None
  else
    let* wd := os_getcwd in
    if negb (String.eqb (Path.dirname old_config_dir) wd) then ret None
    else if negb skip_confirm then
      let* tty := sys_stdin_isatty in
      if negb tty then ret None
      else
        print "" ;;;
        print "Migration available: Layout update" ;;;
        print "  Current: ./config (legacy layout)" ;;;
        print "  New: ./tally/config" ;;;
        print "" ;;;
        let* response :=
          try_except
            (let* answer := input "Migrate to new layout? [Y/n]: " in
             ret (Some (Str.lower (Str.strip answer))))
            (fun e => is_EOFError e || is_KeyboardInterrupt e)
            (fun _ => print (Str.nl +:+ "Skipped.") ;;; ret None) in
        match response with
        | None => ret None
        | Some response =>
            if String.eqb response "n" then ret None
            else perform_layout_migration old_config_dir
        end
    else perform_layout_migration old_config_dir.

(** ** The pipeline *)

Definition run_migrations (config_dir : string) (skip_confirm : bool) : M string :=
  let* current := get_schema_version config_dir in
  if (SCHEMA_VERSION <=? current)%Z then ret config_dir
  else if (current <? 1)%Z then
    let* result := migrate_v0_to_v1 config_dir skip_confirm in
    match result with
    | Some (String c r) => ret (String c r)
    | _ => ret config_dir
    end
  else ret config_dir.

(** ** CSV to .rules *)

Section RuleFormat.

Context {Co : Collaborators}.

(** Lines 143-157: load, convert, write the new file, back the old one
    up. *)
Definition convert_and_backup (csv_file config_dir : string) (backup : bool) : M unit :=
  let* csv_rules := call (fun m => load_merchant_rules m csv_file) in
  let* content := call (fun _ => csv_to_merchants_content csv_rules) in
  let new_file := Path.join config_dir "merchants.rules" in
  write_file new_file content ;;;
  let* C := the_colors in
  print ("  " +:+ GREEN C +:+ "✓" +:+ RESET C +:+ " Created: config/merchants.rules") ;;;
  print ("      Converted " +:+ Str.of_nat (List.length csv_rules)
         +:+ " merchant rules to new format") ;;;
  let* there := os_path_exists csv_file in
  if backup && there then
    shutil_move csv_file (csv_file +:+ ".bak") ;;;
    print ("  " +:+ GREEN C +:+ "✓" +:+ RESET C
           +:+ " Backed up: merchant_categories.csv → .bak")
  else ret tt.

(** Lines 159-169: point settings.yaml at the new file. *)
Definition settings_comment : string :=
  Str.nl +:+ "# Merchant rules file (migrated from CSV)" +:+ Str.nl.

Definition settings_pointer : string :=
  "merchants_file: config/merchants.rules" +:+ Str.nl.

Definition update_settings (config_dir : string) : M unit :=
  let settings_path := Path.join config_dir "settings.yaml" in
  let* there := os_path_exists settings_path in
  if there then
    let* content := read_text settings_path in
    if negb (Str.contains "merchants_file:" content) then
      open_append settings_path ;;;
      write_str settings_path settings_comment ;;;
      write_str settings_path settings_pointer ;;;
      let* C := the_colors in
      print ("  " +:+ GREEN C +:+ "✓" +:+ RESET C +:+ " Updated: config/settings.yaml") ;;;
      print "      Added merchants_file: config/merchants.rules"
    else ret tt
  else ret tt.

Definition migrate_csv_to_rules (csv_file config_dir : string) (backup : bool) : M bool :=
  try_except
    (convert_and_backup csv_file config_dir backup ;;;
     update_settings config_dir ;;;
     ret true)
    is_Exception
    (fun e =>
       let* C := the_colors in
       print ("  " +:+ RED C +:+ "✗" +:+ RESET C +:+ " Migration failed: " +:+ exn_str e) ;;;
       ret false).

(** ** Which rules a run uses *)

Definition no_rules_found : string :=
  "No merchant rules found - transactions will be categorized as Unknown".

Definition no_rules_defined : string :=
  "⚠️  No merchant rules defined - all transactions will be 'Unknown'".

(** The three lines of the empty-rules warning and the blank lines around
    them. *)
Definition warn_no_rules : M unit :=
  print "" ;;;
  print no_rules_defined ;;;
  print "    Run 'tally discover' to find unknown merchants and get suggested rules." ;;;
  print "    Tip: Use an AI agent with 'tally discover' to auto-generate rules!" ;;;
  print "".

Definition upgrade_banner : M unit :=
  let* C := the_colors in
  let bar := YELLOW C +:+ "│" +:+ RESET C in
  print "" ;;;
  print (YELLOW C +:+ "╭─ Upgrade Available ─────────────────────────────────────────────────╮" +:+ RESET C) ;;;
  print (bar +:+ " Found: merchant_categories.csv (legacy CSV format)                  " +:+ bar) ;;;
  print (bar +:+ "                                                                      " +:+ bar) ;;;
  print (bar +:+ " The new .rules format supports powerful expressions:                 " +:+ bar) ;;;
  print (bar +:+ "   match: contains(" +:+ Str.dq +:+ "COSTCO" +:+ Str.dq
         +:+ ") and amount > 200                        " +:+ bar) ;;;
  print (bar +:+ "   match: regex(" +:+ Str.dq +:+ "UBER.*EATS" +:+ Str.dq
         +:+ ") and month == 12                        " +:+ bar) ;;;
  print (YELLOW C +:+ "╰──────────────────────────────────────────────────────────────────────╯" +:+ RESET C) ;;;
  print "".

Definition loaded_message (n : nat) (file : string) : string :=
  "Loaded " +:+ Str.of_nat n +:+ " categorization rules from " +:+ file.

(** Lines 205-233: whether to convert.  The force flag decides; without
    it an interactive run asks (default: no) and any other run only
    mentions the flag. *)
Definition decide_migration (quiet migrate : bool) : M bool :=
  let* tty := sys_stdout_isatty in
  let is_interactive := tty && negb migrate in
  (if negb quiet then upgrade_banner else ret tt) ;;;
  if is_interactive then
    let* should_migrate :=
      try_except
        (let* response := input "   Migrate to new format? [y/N] " in
         ret (String.eqb (Str.lower (Str.strip response)) "y"))
        (fun e => is_EOFError e || is_KeyboardInterrupt e)
        (fun _ => ret false) in
    (if negb should_migrate then
       let* C := the_colors in
       print ("   " +:+ DIM C +:+ "Skipped - continuing with CSV format for this run"
              +:+ RESET C) ;;;
       print ""
     else ret tt) ;;;
    ret should_migrate
  else
    (if negb migrate && negb quiet then
       let* C := the_colors in
       print ("   " +:+ DIM C +:+ "Tip: Run with --migrate to convert automatically"
              +:+ RESET C) ;;;
       print ""
     else ret tt) ;;;
    ret migrate.

(** Lines 248-257: this run keeps the CSV rules. *)
Definition continue_with_csv
    (merchants_file rule_mode : string) (quiet : bool) (csv_rules : list rule)
  : M (list rule) :=
  (if negb quiet then
     print (loaded_message (List.length csv_rules) merchants_file) ;;;
     if (List.length csv_rules =? 0)%nat then warn_no_rules else ret tt
   else ret tt) ;;;
  call (fun m => get_all_rules m (Some merchants_file) rule_mode).

(** Lines 235-257: convert when asked to, and return the rules of the new
    file; fall back on the CSV rules otherwise. *)
Definition migrate_or_continue
    (merchants_file config_dir rule_mode : string) (quiet : bool)
    (csv_rules : list rule) (should_migrate : bool)
  : M (list rule) :=
  if should_migrate then
    let* C := the_colors in
    print (CYAN C +:+ "Migrating to new format..." +:+ RESET C) ;;;
    print "" ;;;
    let* ok := migrate_csv_to_rules merchants_file config_dir true in
    if ok then
      print "" ;;;
      print (GREEN C +:+ "Migration complete!" +:+ RESET C
             +:+ " Your rules now support expressions.") ;;;
      print "" ;;;
      let new_file := Path.join config_dir "merchants.rules" in
      call (fun m => get_all_rules m (Some new_file) rule_mode)
    else continue_with_csv merchants_file rule_mode quiet csv_rules
  else continue_with_csv merchants_file rule_mode quiet csv_rules.

Definition check_merchant_migration
    (config : gmap string string) (config_dir : string) (quiet migrate : bool)
  : M (list rule) :=
  let merchants_format := config !! "_merchants_format" in
  let rule_mode := default "first_match" (config !! "rule_mode") in
  match config !! "_merchants_file" with
  | None | Some EmptyString =>
      (if negb quiet then print no_rules_found else ret tt) ;;;
      call (fun m => get_all_rules m None rule_mode)
  | Some merchants_file =>
      if bool_decide (merchants_format = Some "csv") then
        let* csv_rules := call (fun m => load_merchant_rules m merchants_file) in
        let* should_migrate := decide_migration quiet migrate in
        migrate_or_continue merchants_file config_dir rule_mode quiet csv_rules should_migrate
      else if bool_decide (merchants_format = Some "new") then
        let* rules := call (fun m => get_all_rules m (Some merchants_file) rule_mode) in
        (if negb quiet then
           print (loaded_message (List.length rules) merchants_file) ;;;
           if (List.length rules =? 0)%nat then warn_no_rules else ret tt
         else ret tt) ;;;
        ret rules
      else
        (if negb quiet then print no_rules_found else ret tt) ;;;
        call (fun m => get_all_rules m None rule_mode)
  end.

End RuleFormat.

(** ** Vocabulary of the statements *)

(** The numeral carries a minus sign. *)
Definition signed_minus (t : string) : bool :=
  match Str.strip t with String "-" _ => true | _ => false end.

(** The texts whose reading decides the layout step are plain: the marker
    of the directory, when it is a text file, and the next line of the
    input. *)
Definition plain_inputs (d : string) (w : world) : Prop :=
  (forall s, fs w !! Path.join d ".tally-schema" = Some (File (Text s)) ->
             Str.plain s = true)
  /\ (forall s rest, stdin w = Line s :: rest -> Str.is_ascii s = true).

(** The world once the layout prompt has been shown. *)
Definition layout_prompted (w : world) : world :=
  add_stdout "Migrate to new layout? [Y/n]: "
    (add_stdout ""
       (add_stdout "  New: ./tally/config"
          (add_stdout "  Current: ./config (legacy layout)"
             (add_stdout "Migration available: Layout update"
                (add_stdout "" w))))).


(** [m] takes every world to one related to it by [R]. *)
Definition preserves (R : world -> world -> Prop) {A} (m : M A) : Prop :=
  forall w, R w (snd (m w)).

(** The working directory, the environment and the terminals stay what
    they are. *)
Definition env_same (w w' : world) : Prop :=
  cwd w' = cwd w /\ environ w' = environ w
  /\ stdin_tty w' = stdin_tty w /\ stdout_tty w' = stdout_tty w.

(** Only directories were created and things moved. *)
Definition is_move_op (op : fs_op) : bool :=
  match op with OpMkdir _ | OpRename _ _ => true | _ => false end.

Definition moves_only (w w' : world) : Prop :=
  exists ops, fs_log w' = fs_log w ++ ops /\ forallb is_move_op ops = true.

(** What [p] names is left alone. *)
Definition keeps (p : string) (w w' : world) : Prop := fs w' !! p = fs w !! p.

(** Nothing but the fault oracle, the input and the output moved on. *)
Definition files_same (w w' : world) : Prop :=
  fs w' = fs w /\ fs_log w' = fs_log w.

(** The log of mutations was only added to. *)
Definition log_grows (w w' : world) : Prop :=
  exists ops, fs_log w' = fs_log w ++ ops.

(** What a computation can return or raise, whatever the world. *)
Definition yields {A} (m : M A) (Q : result A -> Prop) : Prop := forall w, Q (fst (m w)).

Definition may_raise {A} (P : exn -> Prop) (T : A -> Prop) (r : result A) : Prop :=
  match r with Ok a => T a | Raise e => P e end.

Definition anything {A} (_ : A) : Prop := True.
Definition nothing (_ : exn) : Prop := False.
Definition os_error (e : exn) : Prop := is_OSError e = true.
Definition exception (e : exn) : Prop := is_Exception e = true.

(** The key the settings check looks for, and its occurrences. *)
Definition pointer_key : string := "merchants_file:".

(** What one settings update can leave at the end of the file: nothing, the
    start of the comment, or the comment and the start of the pointer
    line. *)
Inductive appended : string -> Prop :=
  | appended_comment n : appended (Str.prefix_n n settings_comment)
  | appended_pointer n : appended (settings_comment +:+ Str.prefix_n n settings_pointer).

Fixpoint has_char (x : ascii) (s : string) : bool :=
  match s with
  | EmptyString => false
  | String c s' => Ascii.eqb c x || has_char x s'
  end.

Fixpoint last_char (s : string) : option ascii :=
  match s with
  | EmptyString => None
  | String c EmptyString => Some c
  | String _ s' => last_char s'
  end.

(** What [os.path.join] puts in front of a relative name. *)
Definition join_prefix (a : string) : string :=
  match a with
  | EmptyString => ""
  | _ => if Path.ends_with_sep a then a else a +:+ "/"
  end.

(** The lines on the standard output that tell the user there are no
    rules. *)
Definition is_no_rules_warning (l : string) : bool :=
  String.eqb l no_rules_defined || String.eqb l no_rules_found.

Definition warnings (out : list string) : nat :=
  List.length (List.filter is_no_rules_warning out).

(** ** Sample collaborators and worlds

    A stand-in for the rule modules, enough to run the migration code: a
    rule is a non-empty line of the CSV file, a file that does not decode
    fails to load, and the rules of a path are the rules loaded from it. *)

Fixpoint lines (s : string) : list string :=
  match s with
  | EmptyString => [""]
  | String c s' =>
      if Ascii.eqb c "010" then "" :: lines s'
      else match lines s' with
           | l :: ls => String c l :: ls
           | [] => [String c ""]
           end
  end.

Definition sample_load (m : gmap string node) (p : string) : outcome (list string) :=
  match m !! p with
  | None => Returned []
  | Some Dir => Failed "Is a directory"
  | Some (File NotUtf8) => Failed "'utf-8' codec can't decode"
  | Some (File (Text s)) =>
      Returned (List.filter (fun l => negb (String.eqb l "")) (lines s))
  end.

Definition sample_content (rules : list string) : outcome string :=
  Returned (List.fold_right (fun r acc => "match: " +:+ r +:+ Str.nl +:+ acc) "" rules).

Definition sample_collaborators : Collaborators := {|
  rule := string;
  load_merchant_rules := sample_load;
  csv_to_merchants_content := sample_content;
  get_all_rules := fun m p _ =>
    match p with
    | None => Returned []
    | Some p => sample_load m p
    end
|}.

Definition sample_csv : string := "/w/config/merchant_categories.csv".

Definition sample_files (csv : node) : gmap string node :=
  list_to_map [("/w", Dir); ("/w/config", Dir);
               ("/w/config/settings.yaml", File (Text ("currency: USD" +:+ Str.nl)));
               (sample_csv, csv);
               ("/w/data", Dir); ("/w/data/2024.csv", File (Text "date,amount"))].

Definition three_rows : node :=
  File (Text ("COSTCO,Costco,Food" +:+ Str.nl +:+ "UBER,Uber,Transport" +:+ Str.nl
              +:+ "NETFLIX,Netflix,Fun" +:+ Str.nl)).

(** A run with no terminal, as under CI. *)
Definition w_batch : world :=
  World (sample_files three_rows) [] "/w" ∅ false false [] [] [] [].

(** A user at the terminal who first answers n, then presses return. *)
Definition w_asked : world :=
  World (sample_files three_rows) [] "/w" ∅ true true [Line "n"; Line ""] [] [] [].

(** A user who answers with a capital N. *)
Definition w_capital : world :=
  World (sample_files three_rows) [] "/w" ∅ true true [Line "N"] [] [] [].

(** The third fallible call, the move of data/, fails. *)
Definition w_fault : world :=
  World (sample_files three_rows) [] "/w" ∅ false false [] [None; None; Some 0%nat] [] [].

(** The schema marker holds -1. *)
Definition w_negative : world :=
  World (<["/w/config/.tally-schema" := File (Text ("-1" +:+ Str.nl))]>
           (sample_files three_rows))
        [] "/w" ∅ false false [] [] [] [].

(** The CSV file is not valid UTF-8; the CSV file is empty. *)
Definition w_undecodable : world :=
  World (sample_files (File NotUtf8)) [] "/w" ∅ false false [] [] [] [].

Definition w_empty_csv : world :=
  World (sample_files (File (Text ""))) [] "/w" ∅ false false [] [] [] [].


(** No settings.yaml in the configuration directory. *)
Definition w_no_settings : world :=
  World (delete "/w/config/settings.yaml" (sample_files three_rows))
        [] "/w" ∅ false false [] [] [] [].

Definition csv_config : gmap string string :=
  list_to_map [("_merchants_file", sample_csv); ("_merchants_format", "csv")].

(** ** Vocabulary of the further properties *)

(** Nothing was read from the standard input. *)
Definition input_untouched (w w' : world) : Prop := stdin w' = stdin w.

(** Nothing was written to the standard error. *)
Definition stderr_same (w w' : world) : Prop := stderr w' = stderr w.

(** The schema marker of a configuration directory. *)
Definition marker_of (config_dir : string) : string :=
  Path.join config_dir ".tally-schema".

(** The mutations the pipeline may carry out from the working directory
    [c] on the configuration directory [d]: create ./tally, move [d],
    ./data and ./output, write the marker of ./tally/config. *)
Definition layout_op_allowed (c d : string) (op : fs_op) : bool :=
  match op with
  | OpMkdir p => String.eqb p (Path.join c "tally")
  | OpRename src _ =>
      String.eqb src d || String.eqb src (Path.join c "data")
      || String.eqb src (Path.join c "output")
  | OpTruncate p | OpWrite p _ =>
      String.eqb p (marker_of (Path.join (Path.join c "tally") "config"))
  end.

(** From the working directory [c], only mutations allowed for [d] were
    carried out, and the working directory is still [c]. *)
Definition layout_only (c d : string) (w w' : world) : Prop :=
  cwd w = c ->
  cwd w' = c
  /\ exists ops, fs_log w' = fs_log w ++ ops
                 /\ forallb (layout_op_allowed c d) ops = true.

(** The colour codes when colours are off. *)
Definition plain_colors : Colors :=
  {| RESET := ""; BOLD := ""; DIM := ""; GREEN := ""; CYAN := ""; BLUE := "";
     YELLOW := ""; RED := ""; UNDERLINE := "" |}.

(** ** Versions: [_version.py]

    [str.split(sep)] for a separator of one character: the parts between
    the separators, at least one. *)
Fixpoint str_split (sep : ascii) (s : string) : list string :=
  match s with
  | EmptyString => [EmptyString]
  | String c s' =>
      if Ascii.eqb c sep then EmptyString :: str_split sep s'
      else match str_split sep s' with
           | p :: ps => String c p :: ps
           | [] => [String c EmptyString]
           end
  end.

(** Lines 62-64: the first three dot-separated parts as integers;
    [None] stands for the [ValueError] of [int]. *)
Definition parse_version (v : string) : option (list Z) :=
  mapM Str.py_int (take 3 (str_split "." v)).

(** [>] on tuples of integers: the first position where they differ
    decides; a proper prefix is smaller. *)
Fixpoint tuple_gt (a b : list Z) : bool :=
  match a, b with
  | x :: a', y :: b' => if (x =? y)%Z then tuple_gt a' b' else (y <? x)%Z
  | _ :: _, [] => true
  | [], _ => false
  end.

(** Lines 59-68. *)
Definition _version_greater (v1 v2 : string) : bool :=
  match parse_version v1 with
  | Some t1 =>
      match parse_version v2 with
      | Some t2 => tuple_gt t1 t2
      | None => false
      end
  | None => false
  end.

(** The version string of three numbers. *)
Definition dotted (a b c : nat) : string :=
  Str.of_nat a +:+ "." +:+ Str.of_nat b +:+ "." +:+ Str.of_nat c.

Fixpoint all_digits (s : string) : bool :=
  match s with
  | EmptyString => true
  | String c s' => Str.is_digit c && all_digits s'
  end.

(** ** Further sample worlds

    The configuration directory carries the marker of the current
    schema. *)
Definition w_stamped : world :=
  World (<["/w/config/.tally-schema" := File (Text ("1" +:+ Str.nl))]>
           (sample_files three_rows))
        [] "/w" ∅ false false [] [] [] [].

(** A file called tally sits where the namespace directory would go. *)
Definition w_tally_file : world :=
  World (<["/w/tally" := File (Text "notes")]> (sample_files three_rows))
        [] "/w" ∅ false false [] [] [] [].

(** settings.yaml is not valid UTF-8. *)
Definition w_binary_settings : world :=
  World (<["/w/config/settings.yaml" := File NotUtf8]> (sample_files three_rows))
        [] "/w" ∅ false false [] [] [] [].

(** A terminal with both NO_COLOR and FORCE_COLOR set. *)
Definition w_no_color : world :=
  World (sample_files three_rows) [] "/w"
        (list_to_map [("NO_COLOR", "1"); ("FORCE_COLOR", "1")])
        true true [] [] [] [].

Definition sample_rules_file : string := "/w/config/merchants.rules".

Definition new_config : gmap string string :=
  list_to_map [("_merchants_file", sample_rules_file); ("_merchants_format", "new")].

(** * Properties *)

#[local] Arguments String.append !_ _ / : simpl nomatch.

Lemma set_faults_same (w : world) : set_faults (faults w) w = w.
Proof. by destruct w. Qed.

Lemma parse_digits_nonneg s : forall acc b v,
  0 <= acc -> Str.parse_digits s acc b = Some v -> 0 <= v.
Proof.
  induction s as [|c s IH]; intros acc b v Hacc; simpl.
  - destruct b; intros [= <-]; done.
  - destruct (Str.is_digit c) eqn:Hd.
    + apply IH. unfold Str.is_digit in Hd. unfold Str.digit_value.
      apply andb_true_iff in Hd as [H1 _]. apply Nat.leb_le in H1. lia.
    + destruct (Ascii.eqb c "_" && b); [apply IH; done | done].
Qed.

Lemma lstrip_is_by s : Str.lstrip s = Str.lstrip_by Str.is_space s.
Proof. induction s as [|c s IH]; simpl; [done|]. by rewrite IH. Qed.

Lemma rstrip_is_by s : Str.rstrip s = Str.rstrip_by Str.is_space s.
Proof. induction s as [|c s IH]; simpl; [done|]. by rewrite IH. Qed.

Lemma int_space_is_space c : Str.is_int_space c = true -> Str.is_space c = true.
Proof.
  unfold Str.is_int_space, Str.is_space. cbv zeta.
  destruct (Nat.leb_spec 9 (nat_of_ascii c)), (Nat.leb_spec (nat_of_ascii c) 13),
    (Nat.eqb_spec (nat_of_ascii c) 32), (Nat.leb_spec 28 (nat_of_ascii c)),
    (Nat.leb_spec (nat_of_ascii c) 32); simpl; try done; lia.
Qed.

Lemma rstrip_by_head p c r :
  p c = false -> exists r', Str.rstrip_by p (String c r) = String c r'.
Proof.
  intros Hc. cbn [Str.rstrip_by]. rewrite Hc.
  destruct (Str.rstrip_by p r); eauto.
Qed.

Lemma rstrip_by_nonempty p s c r :
  Str.rstrip_by p s = String c r -> exists r0, s = String c r0.
Proof.
  destruct s as [|a s]; cbn [Str.rstrip_by]; [done|].
  destruct (Str.rstrip_by p s); [destruct (p a)|]; intros [= <- <-]; eauto.
Qed.

Lemma lstrip_by_minus t r :
  Str.lstrip_by Str.is_int_space t = String "-" r ->
  Str.lstrip_by Str.is_space t = String "-" r.
Proof.
  induction t as [|c t IH]; cbn [Str.lstrip_by]; [done|].
  destruct (Str.is_int_space c) eqn:Hc.
  - rewrite (int_space_is_space c Hc). exact IH.
  - intros [= -> ->]. reflexivity.
Qed.

Lemma py_int_negative_signed t v :
  Str.py_int t = Some v -> v < 0 -> signed_minus t = true.
Proof.
  unfold Str.py_int, signed_minus. intros H Hneg.
  destruct (Str.int_strip t) as [|c r] eqn:Hs.
  - simpl in H. done.
  - destruct (Ascii.eqb c "-") eqn:Hc.
    + apply Ascii.eqb_eq in Hc. subst c.
      unfold Str.int_strip in Hs.
      apply rstrip_by_nonempty in Hs as (r0 & Hl).
      apply lstrip_by_minus in Hl.
      unfold Str.strip. rewrite rstrip_is_by, lstrip_is_by, Hl.
      destruct (rstrip_by_head Str.is_space "-" r0 eq_refl) as (r' & ->). done.
    + exfalso.
      assert (Hp : Str.parse_digits (String c r) 0 false = Some v \/
                   Str.parse_digits r 0 false = Some v).
      { destruct c as [[] [] [] [] [] [] [] []]; simpl in *; auto; try done. }
      destruct Hp as [Hp|Hp]; apply parse_digits_nonneg in Hp; lia.
Qed.

(** C7, as amended.  For every directory and every behaviour of the
    environment, [get_schema_version] returns an integer and never raises,
    leaving the files, the input and the output as they were.  It returns
    0 when the marker file is absent and when it cannot be read (a
    directory, bytes that do not decode, an I/O error).  For a marker of
    plain text it returns 0 when the text is not a numeral, and otherwise
    the integer the numeral denotes whenever the read succeeds (and never
    anything but that integer or 0), which is negative only when the
    numeral carries a minus sign. *)
Theorem get_schema_version_fails_soft (config_dir : string) (w : world) :
  let marker := Path.join config_dir ".tally-schema" in
  exists v f,
    get_schema_version config_dir w = (Ok v, set_faults f w)
    /\ (fs w !! marker = None -> v = 0)
    /\ ((forall s, fs w !! marker <> Some (File (Text s))) -> v = 0)
    /\ ((exists n rest, faults w = Some n :: rest) -> v = 0)
    /\ (forall s, fs w !! marker = Some (File (Text s)) -> Str.plain s = true ->
          (Str.py_int (Str.strip s) = None -> v = 0)
          /\ (forall x, Str.py_int (Str.strip s) = Some x ->
                 (hd None (faults w) = None -> v = x) /\ (v = x \/ v = 0))
          /\ (v < 0 -> signed_minus (Str.strip s) = true)).
Proof.
  intros marker. unfold get_schema_version. fold marker.
  unfold bind at 1. unfold os_path_exists, path_exists.
  destruct (fs w !! marker) as [n|] eqn:Hm.
  2:{ exists 0, (faults w). rewrite set_faults_same. unfold ret.
      repeat split; try done. }
  unfold try_except, read_text, bind, next_fault, get_world, raise, ret.
  destruct (faults w) as [|[k|] fl] eqn:Hf; simpl; rewrite ?Hm.
  - (* no fault left *)
    destruct n as [[s|]|]; simpl.
    + destruct (Str.py_int (Str.strip s)) as [x|] eqn:Hx; simpl.
      * exists x, []. rewrite <- Hf, set_faults_same.
        split; [done|]. split; [done|]. split; [intros H; by specialize (H s)|].
        split; [intros (? & ? & ?); congruence|].
        intros s' [= <-] _. split; [congruence|]. split.
        -- intros x' Hx'. assert (x' = x) as -> by congruence. auto.
        -- intros Hneg. by eapply py_int_negative_signed.
      * exists 0, []. rewrite <- Hf, set_faults_same.
        repeat split; try done; try lia; try (by right). congruence.
    + exists 0, []. rewrite <- Hf, set_faults_same.
      repeat split; try done; try lia; try (by right); congruence.
    + exists 0, []. rewrite <- Hf, set_faults_same.
      repeat split; try done; try lia; try (by right); congruence.
  - (* the read fails *)
    exists 0, fl. repeat split; try done; try lia; by right.
  - destruct n as [[s|]|]; simpl.
    + destruct (Str.py_int (Str.strip s)) as [x|] eqn:Hx; simpl.
      * exists x, fl.
        split; [done|]. split; [done|]. split; [intros H; by specialize (H s)|].
        split; [intros (? & ? & ?); congruence|].
        intros s' [= <-] _. split; [congruence|]. split.
        -- intros x' Hx'. assert (x' = x) as -> by congruence. auto.
        -- intros Hneg. by eapply py_int_negative_signed.
      * exists 0, fl. repeat split; try done; try lia; try (by right). congruence.
    + exists 0, fl. repeat split; try done; try lia; try (by right); congruence.
    + exists 0, fl. repeat split; try done; try lia; try (by right); congruence.
Qed.

(** Reading the version never raises and moves nothing but the fault
    oracle. *)
Lemma get_schema_version_quiet config_dir w :
  exists v f, get_schema_version config_dir w = (Ok v, set_faults f w).
Proof.
  unfold get_schema_version, bind, os_path_exists.
  destruct (path_exists _ _).
  2:{ exists 0, (faults w). by rewrite set_faults_same. }
  unfold try_except, read_text, bind, next_fault, get_world, raise, ret.
  destruct (faults w) as [|[k|] fl] eqn:Hf; simpl.
  - assert (Hw : w = set_faults [] w) by (by rewrite <- Hf, set_faults_same).
    repeat case_match; simplify_eq; simpl;
      (eexists _, []; rewrite <- Hw; reflexivity).
  - eauto.
  - repeat case_match; simplify_eq; simpl; eauto.
Qed.


(** Reading a marker that holds a numeral, when the read is not faulted. *)
Lemma get_schema_version_reads (d : string) (w : world) (text : string) (v : Z) :
  fs w !! marker_of d = Some (File (Text text)) ->
  Str.py_int (Str.strip text) = Some v ->
  hd None (faults w) = None ->
  get_schema_version d w = (Ok v, set_faults (tl (faults w)) w).
Proof.
  intros Hm Hv Hf. unfold marker_of in Hm.
  unfold get_schema_version, bind, os_path_exists, path_exists. rewrite Hm.
  unfold try_except, read_text, bind, next_fault, get_world, raise, ret.
  destruct (faults w) as [|[k|] fl] eqn:E; simpl in *; [| done |].
  - rewrite Hm, Hv. simpl. by rewrite <- E, set_faults_same.
  - rewrite Hm, Hv. done.
Qed.


Lemma migrate_v0_to_v1_declines d skip w :
  Path.basename d <> "config" \/ Path.dirname d <> cwd w ->
  migrate_v0_to_v1 d skip w = (Ok None, w).
Proof.
  intros H. unfold migrate_v0_to_v1.
  destruct (String.eqb (Path.basename d) "config") eqn:Hb; simpl; [|done].
  apply String.eqb_eq in Hb.
  destruct H as [H|H]; [done|].
  unfold bind, os_getcwd.
  destruct (String.eqb (Path.dirname d) (cwd w)) eqn:Hd; simpl; [|done].
  apply String.eqb_eq in Hd. done.
Qed.

(** C5.  For a directory whose base name is not [config], or whose parent
    is not the working directory, the layout step declines in silence: it
    returns [None] and leaves the whole world as it was, and
    [run_migrations] returns the directory it was given, having written
    nothing and printed nothing, whatever the confirmation flag. *)
Theorem layout_migration_declines_elsewhere (d : string) (skip : bool) (w : world) :
  Path.basename d <> "config" \/ Path.dirname d <> cwd w ->
  migrate_v0_to_v1 d skip w = (Ok None, w)
  /\ exists f, run_migrations d skip w = (Ok d, set_faults f w).
Proof.
  intros H. split; [by apply migrate_v0_to_v1_declines|].
  unfold run_migrations, bind.
  destruct (get_schema_version_quiet d w) as (v & f & ->).
  exists f.
  destruct (SCHEMA_VERSION <=? v)%Z; [done|].
  destruct (v <? 1)%Z; [|done].
  rewrite migrate_v0_to_v1_declines; [done|].
  by destruct w.
Qed.

(** C6, as amended.  With [skip_confirm] false, on a directory the step
    applies to: without an interactive input stream the step declines and
    the world is untouched; with one, the prompt is shown, and end of
    input or an interrupt prints Skipped and declines; an answer that
    reads n once surrounding whitespace is stripped and letters are
    lowered declines; every other answer in ASCII, the empty one
    included, goes on to the migration proper.  No decline touches the
    file system. *)
Theorem layout_confirmation (d : string) (w : world) :
  Path.basename d = "config" -> Path.dirname d = cwd w ->
  (stdin_tty w = false -> migrate_v0_to_v1 d false w = (Ok None, w))
  /\ (stdin_tty w = true ->
      match stdin w with
      | [] =>
          migrate_v0_to_v1 d false w
          = (Ok None, add_stdout (Str.nl +:+ "Skipped.") (layout_prompted w))
      | Eof :: rest | Interrupt :: rest =>
          migrate_v0_to_v1 d false w
          = (Ok None, add_stdout (Str.nl +:+ "Skipped.") (set_stdin rest (layout_prompted w)))
      | Line answer :: rest =>
          (String.eqb (Str.lower (Str.strip answer)) "n" = true ->
           migrate_v0_to_v1 d false w = (Ok None, set_stdin rest (layout_prompted w)))
          /\ (Str.is_ascii answer = true ->
              String.eqb (Str.lower (Str.strip answer)) "n" = false ->
              migrate_v0_to_v1 d false w
              = perform_layout_migration d (set_stdin rest (layout_prompted w)))
      end)
  /\ (forall rest,
        fs (set_stdin rest (layout_prompted w)) = fs w
        /\ fs_log (set_stdin rest (layout_prompted w)) = fs_log w
        /\ fs (add_stdout (Str.nl +:+ "Skipped.") (set_stdin rest (layout_prompted w))) = fs w
        /\ fs_log (add_stdout (Str.nl +:+ "Skipped.") (set_stdin rest (layout_prompted w)))
           = fs_log w).
Proof.
  intros Hb Hd.
  assert (Hstart : migrate_v0_to_v1 d false w
                   = (if negb (stdin_tty w) then ret None
                      else
                        print "" ;;;
                        print "Migration available: Layout update" ;;;
                        print "  Current: ./config (legacy layout)" ;;;
                        print "  New: ./tally/config" ;;;
                        print "" ;;;
                        let* response :=
                          try_except
                            (let* answer := input "Migrate to new layout? [Y/n]: " in
                             ret (Some (Str.lower (Str.strip answer))))
                            (fun e => is_EOFError e || is_KeyboardInterrupt e)
                            (fun _ => print (Str.nl +:+ "Skipped.") ;;; ret None) in
                        match response with
                        | None => ret None
                        | Some response =>
                            if String.eqb response "n" then ret None
                            else perform_layout_migration d
                        end) w).
  { unfold migrate_v0_to_v1. rewrite Hb. simpl.
    unfold bind at 1. unfold os_getcwd. rewrite Hd, String.eqb_refl. simpl.
    unfold bind at 1. unfold sys_stdin_isatty. done. }
  split; [|split].
  - intros Ht. rewrite Hstart, Ht. done.
  - intros Ht. rewrite !Hstart, Ht. simpl.
    unfold bind, print, try_except, input, ret. simpl. fold (layout_prompted w).
    destruct (stdin w) as [|[answer| |] rest]; simpl; try done.
    split.
    + intros Hn. by rewrite Hn.
    + intros _ Hn. by rewrite Hn.
  - intros rest. done.
Qed.

(** ** Frame reasoning *)

Section Preserves.

Context (R : world -> world -> Prop) `{!PreOrder R}.

Lemma preserves_ret {A} (a : A) : preserves R (ret a).
Proof. intros w. simpl. reflexivity. Qed.

Lemma preserves_raise {A} (e : exn) : preserves R (@raise A e).
Proof. intros w. simpl. reflexivity. Qed.

Lemma preserves_bind {A B} (m : M A) (k : A -> M B) :
  preserves R m -> (forall a, preserves R (k a)) -> preserves R (bind m k).
Proof.
  intros Hm Hk w. unfold bind. specialize (Hm w).
  destruct (m w) as [[a|e] w1]; simpl in *; [|done].
  etransitivity; [exact Hm | apply Hk].
Qed.

Lemma preserves_try_except {A} (m : M A) classes handler :
  preserves R m -> (forall e, preserves R (handler e)) ->
  preserves R (try_except m classes handler).
Proof.
  intros Hm Hh w. unfold try_except. specialize (Hm w).
  destruct (m w) as [[a|e] w1]; simpl in *; [done|].
  destruct (classes e); [|done].
  etransitivity; [exact Hm | apply Hh].
Qed.

Lemma preserves_for_each {A} (xs : list A) (body : A -> M unit) :
  (forall x, preserves R (body x)) -> preserves R (for_each xs body).
Proof.
  intros Hb. induction xs as [|x xs IH]; simpl.
  - apply preserves_ret.
  - apply preserves_bind; [apply Hb | intros _; exact IH].
Qed.

Lemma preserves_read {A} (f : world -> result A) : preserves R (fun w => (f w, w)).
Proof. intros w. simpl. reflexivity. Qed.

End Preserves.

Ltac preserves_step :=
  lazymatch goal with
  | |- preserves ?R (bind _ _) => apply (preserves_bind R); [| intros ?]
  | |- preserves ?R (try_except _ _ _) => apply (preserves_try_except R); [| intros ?]
  | |- preserves ?R (ret _) => apply (preserves_ret R)
  | |- preserves ?R (raise _) => apply (preserves_raise R)
  | |- preserves ?R (for_each _ _) => apply (preserves_for_each R); intros ?
  | |- preserves _ (if ?b then _ else _) => destruct b
  | |- preserves _ (match ?x with _ => _ end) => destruct x
  end.

Create HintDb frame discriminated.

Ltac preserves_pure :=
  unfold os_path_exists, os_path_isdir, os_getcwd, os_path_abspath,
    sys_stdin_isatty, sys_stdout_isatty, the_colors, get_world, call;
  lazymatch goal with
  | |- preserves ?R _ =>
      first [ apply (preserves_read R)
            | let w := fresh "w" in intros w; simpl; case_match; reflexivity ]
  end.

Ltac preserves_auto :=
  repeat first [ solve [ auto with frame ] | preserves_step | progress cbv zeta
               | solve [ preserves_pure ] ].

#[local] Instance env_same_preorder : PreOrder env_same.
Proof.
  split.
  - intros w. by repeat split.
  - intros a b c (?&?&?&?) (?&?&?&?). repeat split; congruence.
Qed.

#[local] Instance moves_only_preorder : PreOrder moves_only.
Proof.
  split.
  - intros w. exists []. by rewrite app_nil_r.
  - intros a b c (o1 & H1 & F1) (o2 & H2 & F2). exists (o1 ++ o2).
    rewrite H2, H1, app_assoc, forallb_app, F1, F2. done.
Qed.

#[local] Instance keeps_preorder p : PreOrder (keeps p).
Proof.
  split.
  - intros w. done.
  - intros a b c H1 H2. unfold keeps in *. congruence.
Qed.

#[local] Instance files_same_preorder : PreOrder files_same.
Proof.
  split.
  - intros w. done.
  - intros a b c [? ?] [? ?]. split; congruence.
Qed.

Ltac prim_frame :=
  let w := fresh "w" in
  intros w;
  unfold bind, next_fault, get_world, raise, ret;
  repeat (case_match; simpl in *; simplify_eq);
  simpl; try done.

Section PrimitiveFrames.

Lemma env_same_read {A} (f : world -> result A) : preserves env_same (fun w => (f w, w)).
Proof. apply (preserves_read env_same). Qed.

Lemma env_same_next_fault : preserves env_same next_fault.
Proof. unfold next_fault. prim_frame. Qed.

Lemma env_same_print s : preserves env_same (print s).
Proof. unfold print. prim_frame. Qed.

Lemma env_same_print_err s : preserves env_same (print_err s).
Proof. unfold print_err. prim_frame. Qed.

Lemma env_same_input s : preserves env_same (input s).
Proof. unfold input. prim_frame. Qed.

Lemma env_same_read_text p : preserves env_same (read_text p).
Proof. unfold read_text. prim_frame. Qed.

Lemma env_same_open_write p : preserves env_same (open_write p).
Proof. unfold open_write. prim_frame. Qed.

Lemma env_same_open_append p : preserves env_same (open_append p).
Proof. unfold open_append. prim_frame. Qed.

Lemma env_same_write_str p s : preserves env_same (write_str p s).
Proof. unfold write_str. prim_frame. Qed.

Lemma env_same_os_makedirs p : preserves env_same (os_makedirs p).
Proof. unfold os_makedirs. prim_frame. Qed.

Lemma env_same_shutil_move s d : preserves env_same (shutil_move s d).
Proof. unfold shutil_move. prim_frame. Qed.

End PrimitiveFrames.

#[export] Hint Resolve env_same_read env_same_next_fault env_same_print env_same_print_err
  env_same_input env_same_read_text env_same_open_write env_same_open_append
  env_same_write_str env_same_os_makedirs env_same_shutil_move : frame.

(** ** What a computation can return or raise *)

Lemma yields_weaken {A} (m : M A) (Q Q' : result A -> Prop) :
  yields m Q -> (forall r, Q r -> Q' r) -> yields m Q'.
Proof. intros H HQ w. apply HQ, H. Qed.

Lemma yields_ret {A} (a : A) (Q : result A -> Prop) : Q (Ok a) -> yields (ret a) Q.
Proof. intros H w. exact H. Qed.

Lemma yields_raise {A} (e : exn) (Q : result A -> Prop) : Q (Raise e) -> yields (raise e) Q.
Proof. intros H w. exact H. Qed.

Lemma yields_bind {A B} (m : M A) (k : A -> M B) P T (Q : result B -> Prop) :
  yields m (may_raise P T) ->
  (forall a, T a -> yields (k a) Q) ->
  (forall e, P e -> Q (Raise e)) ->
  yields (bind m k) Q.
Proof.
  intros Hm Hk He w. unfold bind. specialize (Hm w).
  destruct (m w) as [[a|e] w1]; simpl in *.
  - by apply Hk.
  - by apply He.
Qed.

Lemma yields_try_except {A} (m : M A) (classes : exn -> bool) (handler : exn -> M A)
    P T (Q : result A -> Prop) :
  yields m (may_raise P T) ->
  (forall a, T a -> Q (Ok a)) ->
  (forall e, P e -> if classes e return Prop then yields (handler e) Q else Q (Raise e)) ->
  yields (try_except m classes handler) Q.
Proof.
  intros Hm Hok He w. unfold try_except. specialize (Hm w).
  destruct (m w) as [[a|e] w1]; simpl in *.
  - by apply Hok.
  - specialize (He e Hm). destruct (classes e); [apply He | exact He].
Qed.

Lemma yields_for_each {A} (xs : list A) (body : A -> M unit) P :
  (forall x, yields (body x) (may_raise P anything)) ->
  yields (for_each xs body) (may_raise P anything).
Proof.
  intros Hb. induction xs as [|x xs IH]; simpl.
  - by apply yields_ret.
  - eapply yields_bind; [apply Hb | intros _ _; exact IH | done].
Qed.

Lemma yields_total {A} (f : world -> A) (P : exn -> Prop) :
  yields (fun w => (Ok (f w), w)) (may_raise P anything).
Proof. intros w. done. Qed.

Ltac prim_yields :=
  let w := fresh "w" in
  intros w;
  unfold bind, next_fault, get_world, raise, ret;
  repeat (case_match; simpl in *; simplify_eq);
  simpl; try done.

Lemma yields_print s P : yields (print s) (may_raise P anything).
Proof. apply (yields_total (fun _ => tt)). Qed.

Lemma yields_print_err s P : yields (print_err s) (may_raise P anything).
Proof. apply (yields_total (fun _ => tt)). Qed.

Lemma yields_the_colors P : yields the_colors (may_raise P anything).
Proof. apply yields_total. Qed.

Lemma yields_os_path_exists p P : yields (os_path_exists p) (may_raise P anything).
Proof. apply yields_total. Qed.

Lemma yields_os_path_isdir p P : yields (os_path_isdir p) (may_raise P anything).
Proof. apply yields_total. Qed.

Lemma yields_os_path_abspath p P : yields (os_path_abspath p) (may_raise P anything).
Proof. apply yields_total. Qed.

Lemma yields_os_makedirs p : yields (os_makedirs p) (may_raise os_error anything).
Proof. unfold os_makedirs. prim_yields. Qed.

Lemma yields_shutil_move s d : yields (shutil_move s d) (may_raise os_error anything).
Proof. unfold shutil_move, shutil_real_dst. prim_yields. Qed.

Lemma yields_open_write p : yields (open_write p) (may_raise os_error anything).
Proof. unfold open_write. prim_yields. Qed.

Lemma yields_open_append p : yields (open_append p) (may_raise os_error anything).
Proof. unfold open_append. prim_yields. Qed.

Lemma yields_write_str p s : yields (write_str p s) (may_raise os_error anything).
Proof. unfold write_str. prim_yields. Qed.

Lemma yields_read_text p : yields (read_text p) (may_raise exception anything).
Proof. unfold read_text. prim_yields. Qed.

Lemma os_error_exception e : os_error e -> exception e.
Proof. by destruct e. Qed.

Ltac prim_moves :=
  let w := fresh "w" in
  intros w;
  unfold bind, next_fault, get_world, raise, ret;
  repeat (case_match; simpl in *; simplify_eq);
  simpl;
  first [ by (exists []; rewrite app_nil_r) | by (eexists [_]) ].

Lemma moves_only_read {A} (f : world -> result A) : preserves moves_only (fun w => (f w, w)).
Proof. apply (preserves_read moves_only). Qed.

Lemma moves_only_print s : preserves moves_only (print s).
Proof. unfold print. prim_moves. Qed.

Lemma moves_only_os_makedirs p : preserves moves_only (os_makedirs p).
Proof. unfold os_makedirs. prim_moves. Qed.

Lemma moves_only_shutil_move s d : preserves moves_only (shutil_move s d).
Proof. unfold shutil_move. prim_moves. Qed.

#[export] Hint Resolve moves_only_read moves_only_print moves_only_os_makedirs
  moves_only_shutil_move : frame.

Lemma move_into_namespace_moves_only d t : preserves moves_only (move_into_namespace d t).
Proof. unfold move_into_namespace. preserves_auto. Qed.

Lemma move_into_namespace_yields d t :
  yields (move_into_namespace d t) (may_raise os_error (fun a => a = Path.join t "config")).
Proof.
  unfold move_into_namespace.
  eapply yields_bind; [apply yields_os_makedirs | intros _ _ | done].
  eapply yields_bind; [apply (yields_print _ os_error) | intros _ _ | done].
  eapply yields_bind; [apply yields_shutil_move | intros _ _ | done].
  eapply yields_bind; [| intros _ _; by apply yields_ret | done].
  apply yields_for_each. intros subdir.
  eapply yields_bind; [apply (yields_os_path_abspath _ os_error) | intros old_path _ | done].
  eapply yields_bind; [apply (yields_os_path_isdir _ os_error) | intros [] _ | done].
  - eapply yields_bind; [apply (yields_print _ os_error) | intros _ _ | done].
    apply yields_shutil_move.
  - by apply yields_ret.
Qed.






(** The migration proper returns the new location or [None], and never
    raises. *)
Lemma perform_layout_migration_result d w :
  exists o w', perform_layout_migration d w = (Ok o, w')
    /\ (o = None \/ o = Some (Path.join (Path.join (cwd w) "tally") "config")).
Proof.
  unfold perform_layout_migration. unfold bind at 1. unfold os_path_abspath.
  set (t := Path.join (cwd w) "tally").
  unfold try_except, bind.
  pose proof (move_into_namespace_yields d t w) as Hy.
  destruct (move_into_namespace d t w) as [[a|e] w1]; simpl in Hy.
  - subst a.
    pose proof (yields_open_write (Path.join (Path.join t "config") ".tally-schema") w1) as Ho.
    unfold write_schema_marker, write_file, bind.
    destruct (open_write _ w1) as [[[]|e] w2]; simpl in Ho.
    + pose proof (yields_write_str (Path.join (Path.join t "config") ".tally-schema")
                    ("1" +:+ Str.nl) w2) as Hw.
      destruct (write_str _ _ w2) as [[[]|e] w3]; simpl in Hw.
      * simpl. eauto.
      * unfold os_error in Hw. rewrite Hw. simpl. eauto.
    + unfold os_error in Ho. rewrite Ho. simpl. eauto.
  - unfold os_error in Hy. rewrite Hy. simpl. eauto.
Qed.

(** The layout step either declines, leaving the files alone, or goes on
    to the migration proper. *)
Lemma migrate_v0_to_v1_cases d skip w :
  (exists w', migrate_v0_to_v1 d skip w = (Ok None, w') /\ files_same w w')
  \/ (exists w', migrate_v0_to_v1 d skip w = perform_layout_migration d w'
                 /\ files_same w w' /\ env_same w w'
                 /\ Path.basename d = "config" /\ Path.dirname d = cwd w).
Proof.
  cut (forall res, res = migrate_v0_to_v1 d skip w ->
         (exists w', res = (Ok None, w') /\ files_same w w')
         \/ (exists w', res = perform_layout_migration d w'
                        /\ files_same w w' /\ env_same w w'
                        /\ Path.basename d = "config" /\ Path.dirname d = cwd w)).
  { intros H. by apply H. }
  intros res E. unfold migrate_v0_to_v1 in E.
  destruct (String.eqb (Path.basename d) "config") eqn:Hb; simpl in E;
    [| left; by exists w].
  apply String.eqb_eq in Hb.
  unfold bind at 1 in E. unfold os_getcwd in E.
  destruct (String.eqb (Path.dirname d) (cwd w)) eqn:Hd; simpl in E;
    [| left; by exists w].
  apply String.eqb_eq in Hd.
  destruct skip; simpl in E.
  { right. exists w. by repeat split. }
  unfold bind at 1 in E. unfold sys_stdin_isatty in E.
  destruct (stdin_tty w) eqn:Ht; simpl in E; [| left; by exists w].
  unfold bind, print, try_except, input, ret in E. simpl in E.
  destruct (stdin w) as [|[answer| |] rest]; simpl in E;
    try (left; eexists; split; [exact E | by split]).
  destruct (String.eqb (Str.lower (Str.strip answer)) "n").
  - left. eexists; split; [exact E | by split].
  - right. eexists; split; [exact E |]. by repeat split.
Qed.

(** C3, as amended.  The layout step never raises and hands its caller one
    of two values: the new location, or [None].  An error in the create
    and move steps aborts the step: it is reported on the standard error
    and the step returns [None], as a decline does; up to that point only
    directories were created and moved, so the version marker was not
    written. *)
Theorem layout_outcome_two_valued (d : string) (skip : bool) (w : world) :
  (exists o w', migrate_v0_to_v1 d skip w = (Ok o, w')
     /\ (o = None \/ o = Some (Path.join (Path.join (cwd w) "tally") "config")))
  /\ (forall e w1,
        move_into_namespace d (Path.join (cwd w) "tally") w = (Raise e, w1) ->
        perform_layout_migration d w
        = (Ok None, add_stderr ("Error during migration: " +:+ exn_str e) w1)
        /\ moves_only w w1).
Proof.
  split.
  - destruct (migrate_v0_to_v1_cases d skip w) as [(w' & -> & _) | (w' & -> & _ & He & _)].
    + eauto.
    + destruct (perform_layout_migration_result d w') as (o & w2 & -> & Ho).
      destruct He as (Hc & _). rewrite Hc in Ho. eauto.
  - intros e w1 H. split.
    + unfold perform_layout_migration. unfold bind at 1. unfold os_path_abspath.
      unfold try_except, bind. rewrite H.
      pose proof (move_into_namespace_yields d (Path.join (cwd w) "tally") w) as Hy.
      rewrite H in Hy. simpl in Hy. unfold os_error in Hy. rewrite Hy. done.
    + pose proof (move_into_namespace_moves_only d (Path.join (cwd w) "tally") w) as Hm.
      by rewrite H in Hm.
Qed.

(** ** Paths under ./tally *)

Lemma append_assoc (a b c : string) : (a +:+ b) +:+ c = a +:+ (b +:+ c).
Proof. induction a as [|x a IH]; simpl; [done | by f_equal]. Qed.

Lemma append_length (a b : string) :
  String.length (a +:+ b) = (String.length a + String.length b)%nat.
Proof. induction a as [|x a IH]; simpl; [done | by rewrite IH]. Qed.

Lemma join_tally (c : string) :
  exists U, Path.join c "tally" = U +:+ "tally"
            /\ (String.length c <= String.length U)%nat.
Proof.
  unfold Path.join. simpl. destruct c as [|x c].
  - by exists "".
  - destruct (Path.ends_with_sep (String x c)).
    + by exists (String x c).
    + exists (String x c +:+ "/"). split.
      * simpl. by rewrite append_assoc.
      * rewrite append_length. lia.
Qed.

Lemma ends_with_sep_tally (U : string) : Path.ends_with_sep (U +:+ "tally") = false.
Proof.
  induction U as [|x U IH]; [done|].
  simpl. destruct (U +:+ "tally") eqn:E; [by destruct U | exact IH].
Qed.

Lemma join_under_tally (U name : string) :
  Str.startswith "/" name = false ->
  Path.join (U +:+ "tally") name = U +:+ "tally/" +:+ name.
Proof.
  intros Hn. unfold Path.join. rewrite Hn, ends_with_sep_tally.
  destruct (U +:+ "tally") eqn:E; [by destruct U|].
  rewrite <- E, append_assoc. done.
Qed.

Lemma split_last_under_tally (U : string) :
  Path.split_last (U +:+ "tally/config") = (U +:+ "tally/", "config").
Proof.
  induction U as [|x U IH]; [done|].
  simpl. rewrite IH. by destruct U.
Qed.

Lemma all_sep_under_tally (U : string) : Path.all_sep (U +:+ "tally/") = false.
Proof.
  induction U as [|x U IH]; [done|].
  simpl. rewrite IH. apply andb_false_r.
Qed.

Lemma rstrip_sep_under_tally (U : string) :
  Path.rstrip_sep (U +:+ "tally/") = U +:+ "tally".
Proof.
  induction U as [|x U IH]; [done|].
  simpl. rewrite IH. by destruct U.
Qed.

(** The new configuration directory lies in ./tally, not in the working
    directory. *)
Lemma new_config_location (c : string) :
  let new_config := Path.join (Path.join c "tally") "config" in
  Path.dirname new_config <> c /\ exists x r, new_config = String x r.
Proof.
  simpl. destruct (join_tally c) as (U & -> & Hlen).
  rewrite join_under_tally by done.
  split.
  - unfold Path.dirname. simpl. rewrite split_last_under_tally. simpl.
    rewrite all_sep_under_tally, rstrip_sep_under_tally.
    intros E. apply (f_equal String.length) in E.
    rewrite append_length in E. simpl in E. lia.
  - destruct U; simpl; eauto.
Qed.


(** ** Text appended to settings.yaml *)

Lemma append_nil_r (s : string) : s +:+ "" = s.
Proof. induction s as [|x s IH]; simpl; [done | by f_equal]. Qed.

Lemma contains_occurrences (p s : string) :
  Str.contains p s = false <-> Str.occurrences p s = 0%nat.
Proof.
  induction s as [|x s IH]; simpl.
  - destruct (Str.startswith p ""); simpl; split; (done || lia).
  - destruct (Str.startswith p (String x s)); simpl.
    + split; (done || lia).
    + exact IH.
Qed.

(** An occurrence of [p] cannot straddle the start of a text that begins
    with a character [p] does not have. *)
Lemma startswith_app_fresh (x : ascii) (r : string) :
  forall p c, has_char x p = false ->
    Str.startswith p (c +:+ String x r) = Str.startswith p c.
Proof.
  induction p as [|a p IH]; intros c Hp; [by destruct c|].
  simpl in Hp. apply orb_false_iff in Hp as [Hax Hp].
  destruct c as [|b c]; simpl.
  - by rewrite Hax.
  - destruct (Ascii.eqb a b); [by apply IH | done].
Qed.

Lemma occurrences_app_fresh (x : ascii) (r p c : string) :
  has_char x p = false -> p <> "" ->
  Str.occurrences p (c +:+ String x r)
  = (Str.occurrences p c + Str.occurrences p (String x r))%nat.
Proof.
  intros Hp Hne.
  induction c as [|b c IH].
  - simpl. destruct p; [done|]. simpl. done.
  - remember (Str.occurrences p (String x r)) as k eqn:Hk. clear Hk.
    change (String b c +:+ String x r) with (String b (c +:+ String x r)).
    cbn [Str.occurrences].
    change (String b (c +:+ String x r)) with (String b c +:+ String x r).
    rewrite startswith_app_fresh by done. rewrite IH. lia.
Qed.

Lemma startswith_prefix_n (p : string) : forall n s,
  Str.startswith p (Str.prefix_n n s) = true -> Str.startswith p s = true.
Proof.
  induction p as [|a p IH]; intros n s; [done|].
  destruct n as [|n], s as [|b s]; simpl; try done.
  destruct (Ascii.eqb a b); [apply IH | done].
Qed.

Lemma occurrences_prefix_n (p : string) : forall n s,
  p <> "" ->
  (Str.occurrences p (Str.prefix_n n s) <= Str.occurrences p s)%nat.
Proof.
  intros n s Hp. destruct p as [|a p]; [done|]. clear Hp.
  revert n. induction s as [|b s IH]; intros n.
  - destruct n; simpl; lia.
  - destruct n as [|n].
    + simpl. lia.
    + cbn [Str.prefix_n Str.occurrences].
      specialize (IH n).
      pose proof (startswith_prefix_n (String a p) (S n) (String b s)) as Hs.
      cbn [Str.prefix_n] in Hs.
      destruct (Str.startswith (String a p) (String b (Str.prefix_n n s))).
      * rewrite Hs by done. lia.
      * destruct (Str.startswith (String a p) (String b s)); lia.
Qed.

Lemma appended_occurrences (c a : string) :
  appended a ->
  (Str.occurrences pointer_key (c +:+ a) <= Str.occurrences pointer_key c + 1)%nat.
Proof.
  intros [n|n].
  - pose proof (occurrences_prefix_n pointer_key n settings_comment ltac:(done)) as Hle.
    change (Str.occurrences pointer_key settings_comment) with 0%nat in Hle.
    simpl in Hle.
    destruct (Str.prefix_n n settings_comment) as [|x r] eqn:E.
    + rewrite append_nil_r. lia.
    + assert (x = "010"%char) as ->.
      { destruct n; [done|]. simpl in E. by injection E. }
      rewrite occurrences_app_fresh by done. lia.
  - pose proof (occurrences_prefix_n pointer_key n settings_pointer ltac:(done)) as Hle.
    change (Str.occurrences pointer_key settings_pointer) with 1%nat in Hle.
    simpl in Hle.
    change (settings_comment +:+ Str.prefix_n n settings_pointer)
      with (String "010" ("# Merchant rules file (migrated from CSV)"
                          +:+ String "010" (Str.prefix_n n settings_pointer))).
    rewrite occurrences_app_fresh by done.
    change (String "010" ("# Merchant rules file (migrated from CSV)"
                          +:+ String "010" (Str.prefix_n n settings_pointer)))
      with ((String "010" "# Merchant rules file (migrated from CSV)")
              +:+ String "010" (Str.prefix_n n settings_pointer)).
    rewrite occurrences_app_fresh by done.
    cbn [Str.occurrences]. simpl Str.startswith. simpl in Hle |- *. lia.
Qed.

(** ** Outcomes of the calls on an existing text file *)

Lemma read_text_outcome p w c :
  fs w !! p = Some (File (Text c)) ->
  (exists w', read_text p w = (Ok c, w') /\ fs w' = fs w /\ fs_log w' = fs_log w
              /\ (faults w = [] -> faults w' = []))
  \/ (exists e w', read_text p w = (Raise e, w') /\ fs w' = fs w /\ fs_log w' = fs_log w
                   /\ faults w <> []).
Proof.
  intros H. unfold read_text, bind, next_fault, get_world, raise, ret.
  destruct (faults w) as [|[k|] fl] eqn:Hf; simpl; rewrite ?H.
  - left. eexists. by repeat split.
  - right. do 2 eexists. by repeat split.
  - left. eexists. by repeat split.
Qed.

Lemma open_append_outcome p w d :
  fs w !! p = Some (File d) ->
  (exists w', open_append p w = (Ok tt, w') /\ fs w' = fs w /\ fs_log w' = fs_log w
              /\ (faults w = [] -> faults w' = []))
  \/ (exists e w', open_append p w = (Raise e, w') /\ fs w' = fs w /\ fs_log w' = fs_log w
                   /\ faults w <> []).
Proof.
  intros H. unfold open_append, bind, next_fault, raise.
  destruct (faults w) as [|[k|] fl] eqn:Hf; simpl; rewrite ?H.
  - left. eexists. by repeat split.
  - right. do 2 eexists. by repeat split.
  - left. eexists. by repeat split.
Qed.

Lemma write_str_outcome p s w c :
  fs w !! p = Some (File (Text c)) ->
  (exists w', write_str p s w = (Ok tt, w')
              /\ fs w' = <[p := File (Text (c +:+ s))]> (fs w)
              /\ fs_log w' = fs_log w ++ [OpWrite p s]
              /\ (faults w = [] -> faults w' = []))
  \/ (exists n e w', write_str p s w = (Raise e, w')
                     /\ fs w' = <[p := File (Text (c +:+ Str.prefix_n n s))]> (fs w)
                     /\ faults w <> []).
Proof.
  intros H. unfold write_str, bind, next_fault.
  destruct (faults w) as [|[k|] fl] eqn:Hf; simpl; rewrite ?H; simpl.
  - left. eexists. by repeat split.
  - right. do 3 eexists. by repeat split.
  - left. eexists. by repeat split.
Qed.

Lemma contains_app_r (p a b : string) :
  Str.contains p b = true -> Str.contains p (a +:+ b) = true.
Proof.
  intros H. induction a as [|x a IH]; [done|].
  simpl. rewrite IH. apply orb_true_r.
Qed.

Lemma update_settings_outcome (config_dir : string) (w : world) (c : string) :
  let settings := Path.join config_dir "settings.yaml" in
  fs w !! settings = Some (File (Text c)) ->
  exists a w',
    snd (update_settings config_dir w) = w'
    /\ fs w' = <[settings := File (Text (c +:+ a))]> (fs w)
    /\ (a = "" \/ (Str.contains pointer_key c = false /\ appended a))
    /\ (faults w = [] -> faults w' = [])
    /\ (faults w = [] -> Str.contains pointer_key c = false ->
        a = settings_comment +:+ settings_pointer).
Proof.
  intros settings H.
  assert (Hid : forall m : gmap string node,
             m !! settings = Some (File (Text c)) ->
             m = <[settings := File (Text (c +:+ ""))]> m).
  { intros m Hm. rewrite append_nil_r. by rewrite insert_id. }
  unfold update_settings. fold settings.
  unfold bind at 1. unfold os_path_exists, path_exists. rewrite H.
  unfold bind at 1.
  destruct (read_text_outcome settings w c H)
    as [(w1 & -> & Hfs1 & _ & Hf1) | (e & w1 & -> & Hfs1 & _ & Hf1)].
  2:{ exists "", w1. simpl. rewrite Hfs1. split; [done|]. split; [by apply Hid|].
      split; [by left | done]. }
  fold pointer_key.
  destruct (Str.contains pointer_key c) eqn:Hc; simpl.
  { exists "", w1. rewrite Hfs1. split; [done|]. split; [by apply Hid|].
    split; [by left | done]. }
  assert (H1 : fs w1 !! settings = Some (File (Text c))) by (by rewrite Hfs1).
  unfold bind at 1.
  destruct (open_append_outcome settings w1 _ H1)
    as [(w2 & -> & Hfs2 & _ & Hf2) | (e & w2 & -> & Hfs2 & _ & Hf2)].
  2:{ exists "", w2. simpl. rewrite Hfs2, Hfs1. split; [done|]. split; [by apply Hid|].
      split; [by left |]. split; intros Hf; by apply Hf1 in Hf. }
  assert (H2 : fs w2 !! settings = Some (File (Text c))) by (by rewrite Hfs2).
  unfold bind at 1.
  destruct (write_str_outcome settings settings_comment w2 c H2)
    as [(w3 & -> & Hfs3 & _ & Hf3) | (n & e & w3 & -> & Hfs3 & Hf3)].
  2:{ exists (Str.prefix_n n settings_comment), w3. simpl.
      rewrite Hfs3, Hfs2, Hfs1. split; [done|]. split; [done|].
      split; [right; split; [done | constructor] |].
      split; intros Hf; apply Hf1, Hf2 in Hf; done. }
  assert (H3 : fs w3 !! settings = Some (File (Text (c +:+ settings_comment))))
    by (by rewrite Hfs3, lookup_insert_eq).
  unfold bind at 1.
  destruct (write_str_outcome settings settings_pointer w3 _ H3)
    as [(w4 & -> & Hfs4 & _ & Hf4) | (n & e & w4 & -> & Hfs4 & Hf4)].
  - exists (settings_comment +:+ settings_pointer).
    eexists. split; [reflexivity|].
    unfold bind, the_colors, print. simpl.
    rewrite Hfs4, Hfs3, Hfs2, Hfs1, insert_insert_eq, append_assoc.
    split; [done|]. split; [|split; [|done]].
    + right. split; [done|].
      exact (appended_pointer (String.length settings_pointer)).
    + intros Hf. by apply Hf1, Hf2, Hf3, Hf4 in Hf.
  - exists (settings_comment +:+ Str.prefix_n n settings_pointer), w4. simpl.
    rewrite Hfs4, Hfs3, Hfs2, Hfs1, insert_insert_eq, append_assoc.
    split; [done|]. split; [done|].
    split; [right; split; [done | constructor] |].
    split; intros Hf; apply Hf1, Hf2, Hf3 in Hf; done.
Qed.

(** C8.  Two settings updates in a row, whatever faults interrupt them:
    settings.yaml keeps its content as a prefix of the new one, the key
    [merchants_file:] occurs at most once in the result unless it occurred
    more often before, nothing is added when the key was already there,
    and without faults what is added is the comment line followed by the
    pointer line, once. *)
Theorem settings_pointer_added_once (config_dir : string) (w : world) (c0 : string) :
  let settings := Path.join config_dir "settings.yaml" in
  let w1 := snd (update_settings config_dir w) in
  let w2 := snd (update_settings config_dir w1) in
  fs w !! settings = Some (File (Text c0)) ->
  exists added,
    fs w2 = <[settings := File (Text (c0 +:+ added))]> (fs w)
    /\ (Str.occurrences pointer_key (c0 +:+ added)
        <= Nat.max 1 (Str.occurrences pointer_key c0))%nat
    /\ (Str.contains pointer_key c0 = true -> added = "")
    /\ (faults w = [] -> Str.contains pointer_key c0 = false ->
        added = settings_comment +:+ settings_pointer).
Proof.
  intros settings w1 w2 H.
  destruct (update_settings_outcome config_dir w c0 H)
    as (a1 & w1' & Ew1 & Hfs1 & Ha1 & Hf1 & Hfull1).
  fold w1 in Ew1. subst w1'. fold settings in Hfs1.
  assert (H1 : fs w1 !! settings = Some (File (Text (c0 +:+ a1))))
    by (by rewrite Hfs1, lookup_insert_eq).
  destruct (update_settings_outcome config_dir w1 _ H1)
    as (a2 & w2' & Ew2 & Hfs2 & Ha2 & _ & _).
  fold w2 in Ew2. subst w2'. fold settings in Hfs2.
  exists (a1 +:+ a2).
  rewrite Hfs2, Hfs1, insert_insert_eq, append_assoc.
  split; [done|].
  rewrite <- append_assoc.
  split; [|split].
  - destruct Ha1 as [-> | [Hc0 Hap1]], Ha2 as [-> | [Hc1 Hap2]];
      rewrite ?append_nil_r in *.
    + lia.
    + apply contains_occurrences in Hc1.
      pose proof (appended_occurrences c0 a2 Hap2). lia.
    + apply contains_occurrences in Hc0.
      pose proof (appended_occurrences c0 a1 Hap1). lia.
    + apply contains_occurrences in Hc1.
      pose proof (appended_occurrences (c0 +:+ a1) a2 Hap2). lia.
  - intros Hc0.
    destruct Ha1 as [-> | [Hc0' _]]; [|congruence].
    rewrite append_nil_r in Ha2.
    destruct Ha2 as [-> | [Hc1 _]]; [done | congruence].
  - intros Hf Hc0. rewrite (Hfull1 Hf Hc0) in *.
    destruct Ha2 as [-> | [Hc1 _]]; [by rewrite append_nil_r|].
    rewrite contains_app_r in Hc1; done.
Qed.

(** ** The conversion never raises *)

Lemma yields_call {A} (f : gmap string node -> outcome A) :
  yields (call f) (may_raise exception anything).
Proof. intros w. unfold call. by destruct (f (fs w)). Qed.

Lemma yields_os {A} (m : M A) T :
  yields m (may_raise os_error T) -> yields m (may_raise exception T).
Proof.
  intros H. eapply yields_weaken; [exact H|].
  intros [a|e]; simpl; [done | apply os_error_exception].
Qed.

Lemma yields_write_file p s : yields (write_file p s) (may_raise os_error anything).
Proof.
  unfold write_file.
  eapply yields_bind; [apply yields_open_write | intros _ _ | done].
  apply yields_write_str.
Qed.

Section RuleFormatFacts.

Context {Co : Collaborators}.

Lemma yields_convert_and_backup csv_file config_dir backup :
  yields (convert_and_backup csv_file config_dir backup) (may_raise exception anything).
Proof.
  unfold convert_and_backup.
  eapply yields_bind; [apply yields_call | intros rules _ | done].
  eapply yields_bind; [apply yields_call | intros content _ | done].
  eapply yields_bind; [apply yields_os, yields_write_file | intros _ _ | done].
  eapply yields_bind; [apply (yields_the_colors exception) | intros C _ | done].
  eapply yields_bind; [apply (yields_print _ exception) | intros _ _ | done].
  eapply yields_bind; [apply (yields_print _ exception) | intros _ _ | done].
  eapply yields_bind; [apply (yields_os_path_exists _ exception) | intros there _ | done].
  destruct (backup && there).
  - eapply yields_bind; [apply yields_os, yields_shutil_move | intros _ _ | done].
    apply yields_print.
  - by apply yields_ret.
Qed.

Lemma yields_update_settings config_dir :
  yields (update_settings config_dir) (may_raise exception anything).
Proof.
  unfold update_settings.
  eapply yields_bind; [apply (yields_os_path_exists _ exception) | intros [] _ | done].
  2:{ by apply yields_ret. }
  eapply yields_bind; [apply yields_read_text | intros content _ | done].
  destruct (negb _); [| by apply yields_ret].
  eapply yields_bind; [apply yields_os, yields_open_append | intros _ _ | done].
  eapply yields_bind; [apply yields_os, yields_write_str | intros _ _ | done].
  eapply yields_bind; [apply yields_os, yields_write_str | intros _ _ | done].
  eapply yields_bind; [apply (yields_the_colors exception) | intros C _ | done].
  eapply yields_bind; [apply (yields_print _ exception) | intros _ _ | done].
  apply yields_print.
Qed.

(** [migrate_csv_to_rules] returns a boolean whatever happens. *)
Lemma migrate_csv_to_rules_total csv_file config_dir backup w :
  exists ok w', migrate_csv_to_rules csv_file config_dir backup w = (Ok ok, w').
Proof.
  assert (H : yields (migrate_csv_to_rules csv_file config_dir backup)
                (may_raise nothing anything)).
  { unfold migrate_csv_to_rules.
    eapply (yields_try_except _ _ _ exception anything).
    - eapply yields_bind; [apply yields_convert_and_backup | intros _ _ | done].
      eapply yields_bind; [apply yields_update_settings | intros _ _ | done].
      by apply yields_ret.
    - done.
    - intros e He. unfold exception in He. rewrite He.
      eapply yields_bind; [apply (yields_the_colors nothing) | intros C _ | done].
      eapply yields_bind; [apply (yields_print _ nothing) | intros _ _ | done].
      by apply yields_ret. }
  specialize (H w).
  destruct (migrate_csv_to_rules csv_file config_dir backup w) as [[ok|e] w'];
    simpl in H; [eauto | done].
Qed.

End RuleFormatFacts.

(** ** The log only grows; other files are left alone *)

#[local] Instance log_grows_preorder : PreOrder log_grows.
Proof.
  split.
  - intros w. exists []. by rewrite app_nil_r.
  - intros a b c (o1 & H1) (o2 & H2). exists (o1 ++ o2).
    by rewrite H2, H1, app_assoc.
Qed.

Ltac prim_grows :=
  let w := fresh "w" in
  intros w;
  unfold bind, next_fault, get_world, raise, ret;
  repeat (case_match; simpl in *; simplify_eq);
  simpl;
  first [ by (exists []; rewrite app_nil_r) | by (eexists [_]) ].

Lemma log_grows_read {A} (f : world -> result A) : preserves log_grows (fun w => (f w, w)).
Proof. apply (preserves_read log_grows). Qed.

Lemma log_grows_print s : preserves log_grows (print s).
Proof. unfold print. prim_grows. Qed.

Lemma log_grows_read_text p : preserves log_grows (read_text p).
Proof. unfold read_text. prim_grows. Qed.

Lemma log_grows_open_append p : preserves log_grows (open_append p).
Proof. unfold open_append. prim_grows. Qed.

Lemma log_grows_write_str p s : preserves log_grows (write_str p s).
Proof. unfold write_str. prim_grows. Qed.

Lemma keeps_read p {A} (f : world -> result A) : preserves (keeps p) (fun w => (f w, w)).
Proof. apply (preserves_read (keeps p)). Qed.

Ltac prim_keeps :=
  let w := fresh "w" in
  intros w;
  unfold keeps, bind, next_fault, get_world, raise, ret;
  repeat (case_match; simpl in *; simplify_eq);
  simpl; rewrite ?lookup_insert_ne by done; try done.

Lemma keeps_print p s : preserves (keeps p) (print s).
Proof. unfold print. prim_keeps. Qed.

Lemma keeps_read_text p q : preserves (keeps p) (read_text q).
Proof. unfold read_text. prim_keeps. Qed.

Lemma keeps_open_write p q : q <> p -> preserves (keeps p) (open_write q).
Proof. intros Hne. unfold open_write. prim_keeps. Qed.

Lemma keeps_open_append p q : q <> p -> preserves (keeps p) (open_append q).
Proof. intros Hne. unfold open_append. prim_keeps. Qed.

Lemma keeps_write_str p q s : q <> p -> preserves (keeps p) (write_str q s).
Proof. intros Hne. unfold write_str. prim_keeps. Qed.

Lemma keeps_write_file p q s : q <> p -> preserves (keeps p) (write_file q s).
Proof.
  intros Hne. unfold write_file.
  apply (preserves_bind (keeps p)); [by apply keeps_open_write|].
  intros _. by apply keeps_write_str.
Qed.

Lemma keeps_update_settings p config_dir :
  Path.join config_dir "settings.yaml" <> p ->
  preserves (keeps p) (update_settings config_dir).
Proof.
  intros Hne. unfold update_settings.
  pose proof (keeps_open_append p _ Hne).
  pose proof (fun s => keeps_write_str p _ s Hne).
  pose proof (keeps_print p). pose proof (keeps_read_text p).
  preserves_auto.
Qed.

Lemma log_grows_update_settings config_dir :
  preserves log_grows (update_settings config_dir).
Proof.
  unfold update_settings.
  pose proof log_grows_print. pose proof log_grows_read_text.
  pose proof log_grows_open_append. pose proof log_grows_write_str.
  preserves_auto.
Qed.

(** ** Outcomes of writing a file and of a move *)

Lemma write_file_outcome p s w r w' :
  write_file p s w = (r, w') ->
  (r = Ok tt
   /\ fs w' = <[p := File (Text s)]> (fs w)
   /\ fs_log w' = fs_log w ++ [OpTruncate p; OpWrite p s])
  \/ (exists e, r = Raise e).
Proof.
  unfold write_file, bind. intros E.
  destruct (open_write p w) as [[[]|e] w1] eqn:Ho; [| right; simplify_eq; eauto].
  assert (Hw1 : fs w1 = <[p := File (Text "")]> (fs w)
                /\ fs_log w1 = fs_log w ++ [OpTruncate p]).
  { unfold open_write, bind, next_fault, raise in Ho.
    destruct (faults w) as [|[k|] fl]; simpl in Ho;
      repeat case_match; simplify_eq; done. }
  destruct Hw1 as [Hfs1 Hlog1].
  assert (H1 : fs w1 !! p = Some (File (Text ""))) by (by rewrite Hfs1, lookup_insert_eq).
  destruct (write_str_outcome p s w1 "" H1)
    as [(w2 & Hw & Hfs2 & Hlog2 & _) | (n & e & w2 & Hw & _)];
    rewrite Hw in E; simplify_eq; [left | right; eauto].
  split; [done|].
  rewrite Hfs2, Hlog2, Hfs1, Hlog1, insert_insert_eq, <- app_assoc. done.
Qed.

Lemma shutil_move_outcome src dst w r w' :
  shutil_move src dst w = (r, w') ->
  (r = Ok tt
   /\ ((fs w' = fs w /\ fs_log w' = fs_log w)
       \/ exists real_dst,
            shutil_real_dst (fs w) src dst = inr real_dst
            /\ fs w' = fs_rename src real_dst (fs w)
            /\ fs_log w' = fs_log w ++ [OpRename src real_dst]))
  \/ ((exists e, r = Raise e) /\ fs w' = fs w /\ fs_log w' = fs_log w).
Proof.
  unfold shutil_move, bind, get_world, next_fault, raise. intros E.
  destruct (shutil_real_dst (fs w) src dst) as [e|real_dst] eqn:Hr.
  { right. simplify_eq. eauto. }
  destruct (faults w) as [|[k|] fl]; simpl in E;
    repeat case_match; simplify_eq;
    first [ right; by eauto
          | left; split; [reflexivity|]; simpl;
            first [ by left | right; by eexists ] ].
Qed.

Section Conversion.

Context {Co : Collaborators}.

Lemma convert_and_backup_outcome csv_file config_dir backup w r w1 :
  let new_file := Path.join config_dir "merchants.rules" in
  csv_file <> new_file ->
  convert_and_backup csv_file config_dir backup w = (r, w1) ->
  fs w1 !! csv_file = fs w !! csv_file
  \/ (r = Ok tt /\ backup = true
      /\ exists rules content real_dst,
           load_merchant_rules (fs w) csv_file = Returned rules
           /\ csv_to_merchants_content rules = Returned content
           /\ fs_log w1 = fs_log w ++ [OpTruncate new_file; OpWrite new_file content;
                                       OpRename csv_file real_dst]).
Proof.
  intros new_file Hne E. unfold convert_and_backup in E. fold new_file in E.
  unfold bind at 1 in E. unfold call at 1 in E.
  destruct (load_merchant_rules (fs w) csv_file) as [rules|msg] eqn:Hl;
    [| left; by simplify_eq].
  unfold bind at 1 in E. unfold call at 1 in E.
  destruct (csv_to_merchants_content rules) as [content|msg] eqn:Hc;
    [| left; by simplify_eq].
  unfold bind at 1 in E.
  pose proof (keeps_write_file csv_file new_file content (not_eq_sym Hne) w) as Hk.
  unfold keeps in Hk.
  destruct (write_file new_file content w) as [rw w2] eqn:Hw. simpl in Hk.
  apply write_file_outcome in Hw as [(-> & Hfs2 & Hlog2) | (e & ->)];
    [| left; by simplify_eq].
  unfold bind at 1 in E. unfold the_colors at 1 in E.
  unfold bind at 1 in E. unfold print at 1 in E.
  unfold bind at 1 in E. unfold print at 1 in E.
  unfold bind at 1 in E. unfold os_path_exists at 1 in E. simpl in E.
  destruct (backup && path_exists (fs w2) csv_file) eqn:Hb.
  2:{ left. unfold ret in E. simplify_eq. simpl. done. }
  apply andb_true_iff in Hb as [-> _].
  unfold bind at 1 in E.
  destruct (shutil_move _ _ _) as [rm w3] eqn:Hm.
  apply shutil_move_outcome in Hm
    as [(-> & [[Hfs Hlog] | (rd & Hrd & Hfs & Hlog)]) | ((e & ->) & Hfs & Hlog)];
    simpl in Hfs, Hlog.
  - left. unfold print in E. simplify_eq. simpl. congruence.
  - right. unfold print in E. simplify_eq. simpl.
    repeat split. exists rules, content, rd. repeat split; try done.
    rewrite Hlog, Hlog2, <- app_assoc. done.
  - left. simplify_eq. congruence.
Qed.

(** C1.  For a CSV file that is neither the new rules file nor the
    settings file, [migrate_csv_to_rules] returns a boolean and either
    leaves what the CSV path names as it was, or [backup] is true and the
    log of this call starts with the complete write of the new file,
    followed by the rename of the CSV.  With [backup] false the CSV is
    left as it was.  When writing the new file fails, the call returns
    false, does nothing after the failed write, and the CSV is left as it
    was. *)
Theorem csv_kept_unless_backed_up
    (csv_file config_dir : string) (backup : bool) (w : world) :
  let new_file := Path.join config_dir "merchants.rules" in
  let settings := Path.join config_dir "settings.yaml" in
  csv_file <> new_file -> csv_file <> settings ->
  exists ok w',
    migrate_csv_to_rules csv_file config_dir backup w = (Ok ok, w')
    /\ (fs w' !! csv_file = fs w !! csv_file
        \/ (backup = true
            /\ exists rules content real_dst rest,
                 load_merchant_rules (fs w) csv_file = Returned rules
                 /\ csv_to_merchants_content rules = Returned content
                 /\ fs_log w' = fs_log w
                                ++ [OpTruncate new_file; OpWrite new_file content;
                                    OpRename csv_file real_dst] ++ rest))
    /\ (backup = false -> fs w' !! csv_file = fs w !! csv_file)
    /\ (forall rules content e w1,
          load_merchant_rules (fs w) csv_file = Returned rules ->
          csv_to_merchants_content rules = Returned content ->
          write_file new_file content w = (Raise e, w1) ->
          ok = false /\ fs w' = fs w1 /\ fs_log w' = fs_log w1
          /\ fs w' !! csv_file = fs w !! csv_file).
Proof.
  intros new_file settings Hnew Hset.
  destruct (migrate_csv_to_rules_total csv_file config_dir backup w) as (ok & w' & Hrun).
  exists ok, w'. split; [done|].
  assert (Hmain :
    fs w' !! csv_file = fs w !! csv_file
    \/ (backup = true
        /\ exists rules content real_dst rest,
             load_merchant_rules (fs w) csv_file = Returned rules
             /\ csv_to_merchants_content rules = Returned content
             /\ fs_log w' = fs_log w
                            ++ [OpTruncate new_file; OpWrite new_file content;
                                OpRename csv_file real_dst] ++ rest)).
  { unfold migrate_csv_to_rules, try_except in Hrun.
    unfold bind at 1 in Hrun.
    destruct (convert_and_backup csv_file config_dir backup w) as [r1 w1] eqn:Hconv.
    pose proof (convert_and_backup_outcome _ _ _ _ _ _ Hnew Hconv) as Hout.
    destruct r1 as [[]|e].
    - unfold bind at 1 in Hrun.
      pose proof (keeps_update_settings csv_file config_dir (not_eq_sym Hset) w1) as Hk.
      pose proof (log_grows_update_settings config_dir w1) as (rest & Hg).
      unfold keeps in Hk.
      destruct (update_settings config_dir w1) as [r2 w2]. simpl in Hk, Hg.
      assert (fs w' = fs w2 /\ fs_log w' = fs_log w2) as [Hfs' Hlog'].
      { destruct r2 as [[]|e]; simpl in Hrun.
        - unfold ret in Hrun. by simplify_eq.
        - destruct (is_Exception e); [|done].
          unfold bind, the_colors, print, ret in Hrun. by simplify_eq. }
      rewrite Hfs', Hlog', Hk, Hg.
      destruct Hout as [Hu | (_ & Hb & rules & content & rd & Hl & Hc & Hlog)];
        [by left | right].
      split; [done|]. exists rules, content, rd, rest.
      rewrite Hlog, <- app_assoc. done.
    - left. destruct Hout as [Hu | (? & _)]; [|done].
      destruct (is_Exception e); [|done].
      unfold bind, the_colors, print, ret in Hrun. simplify_eq. simpl. done. }
  split; [exact Hmain|]. split.
  - intros ->. destruct Hmain as [H | [H _]]; done.
  - intros rules content e w1 Hl Hc Hw.
    assert (Hconv : convert_and_backup csv_file config_dir backup w = (Raise e, w1)).
    { unfold convert_and_backup. fold new_file.
      unfold bind at 1. unfold call at 1. rewrite Hl.
      unfold bind at 1. unfold call at 1. rewrite Hc.
      unfold bind at 1. by rewrite Hw. }
    pose proof (yields_write_file new_file content w) as Hy.
    rewrite Hw in Hy. simpl in Hy. apply os_error_exception in Hy.
    pose proof (keeps_write_file csv_file new_file content (not_eq_sym Hnew) w) as Hk.
    unfold keeps in Hk. rewrite Hw in Hk. simpl in Hk.
    unfold migrate_csv_to_rules, try_except in Hrun.
    unfold bind at 1 in Hrun. rewrite Hconv in Hrun.
    unfold exception in Hy. rewrite Hy in Hrun.
    unfold bind, the_colors, print, ret in Hrun. simplify_eq. simpl. done.
Qed.

End Conversion.

(** ** The files of a configuration directory have different names *)

Lemma join_relative (a b : string) :
  Str.startswith "/" b = false -> Path.join a b = join_prefix a +:+ b.
Proof.
  intros H. unfold Path.join, join_prefix. rewrite H.
  destruct a as [|x a]; [done|].
  destruct (Path.ends_with_sep (String x a)); [done | by rewrite append_assoc].
Qed.

Lemma last_char_app (a b : string) : b <> "" -> last_char (a +:+ b) = last_char b.
Proof.
  intros Hb. induction a as [|x a IH]; [done|].
  simpl. destruct (a +:+ b) eqn:E; [| exact IH].
  destruct a, b; simpl in E; done.
Qed.

Lemma rules_file_not_settings (config_dir : string) :
  Path.join config_dir "merchants.rules" <> Path.join config_dir "settings.yaml".
Proof.
  rewrite !join_relative by done. intros E.
  by apply (inj (String.append _)) in E.
Qed.

Lemma backup_not_settings (csv_file config_dir : string) :
  csv_file +:+ ".bak" <> Path.join config_dir "settings.yaml".
Proof.
  rewrite join_relative by done. intros E.
  apply (f_equal last_char) in E. rewrite !last_char_app in E; done.
Qed.

Section SettingsAbsent.

Context {Co : Collaborators}.

Lemma update_settings_absent config_dir w :
  fs w !! Path.join config_dir "settings.yaml" = None ->
  update_settings config_dir w = (Ok tt, w).
Proof.
  intros H. unfold update_settings, bind, os_path_exists, path_exists. by rewrite H.
Qed.

Lemma convert_and_backup_keeps_absent csv_file config_dir backup w :
  let settings := Path.join config_dir "settings.yaml" in
  fs w !! settings = None ->
  (backup = true ->
   is_dir (fs w) csv_file = false /\ is_dir (fs w) (csv_file +:+ ".bak") = false) ->
  fs (snd (convert_and_backup csv_file config_dir backup w)) !! settings = None.
Proof.
  intros settings Habs Hnormal.
  destruct (convert_and_backup csv_file config_dir backup w) as [r w1] eqn:E. simpl.
  unfold convert_and_backup in E.
  set (new_file := Path.join config_dir "merchants.rules") in *.
  assert (Hne : new_file <> settings) by apply rules_file_not_settings.
  unfold bind at 1 in E. unfold call at 1 in E.
  destruct (load_merchant_rules (fs w) csv_file) as [rules|msg]; [| by simplify_eq].
  unfold bind at 1 in E. unfold call at 1 in E.
  destruct (csv_to_merchants_content rules) as [content|msg]; [| by simplify_eq].
  unfold bind at 1 in E.
  pose proof (keeps_write_file settings new_file content Hne w) as Hk.
  unfold keeps in Hk.
  destruct (write_file new_file content w) as [rw w2] eqn:Hw. simpl in Hk.
  apply write_file_outcome in Hw as [(-> & Hfs2 & Hlog2) | (e & ->)];
    [| simplify_eq; congruence].
  unfold bind at 1 in E. unfold the_colors at 1 in E.
  unfold bind at 1 in E. unfold print at 1 in E.
  unfold bind at 1 in E. unfold print at 1 in E.
  unfold bind at 1 in E. unfold os_path_exists at 1 in E. simpl in E.
  destruct (backup && path_exists (fs w2) csv_file) eqn:Hb.
  2:{ unfold ret in E. simplify_eq. simpl. congruence. }
  apply andb_true_iff in Hb as [-> Hex].
  destruct (Hnormal eq_refl) as [Hcsv Hbak].
  unfold bind at 1 in E.
  destruct (shutil_move _ _ _) as [rm w3] eqn:Hm.
  apply shutil_move_outcome in Hm
    as [(-> & [[Hfs Hlog] | (rd & Hrd & Hfs & Hlog)]) | ((e & ->) & Hfs & Hlog)];
    simpl in Hfs, Hlog.
  - unfold print in E. simplify_eq. simpl. congruence.
  - unfold print in E. simplify_eq. simpl. rewrite Hfs.
    assert (Hd2 : forall q, is_dir (fs w) q = false -> is_dir (fs w2) q = false).
    { intros q Hq. unfold is_dir in *. rewrite Hfs2.
      destruct (decide (new_file = q)) as [->|Hq'].
      - by rewrite lookup_insert_eq.
      - by rewrite lookup_insert_ne. }
    simpl in Hrd. unfold shutil_real_dst in Hrd. rewrite (Hd2 _ Hbak) in Hrd.
    injection Hrd as <-.
    specialize (Hd2 _ Hcsv). unfold is_dir in Hd2. unfold fs_rename.
    destruct (fs w2 !! csv_file) as [[d|]|] eqn:Hn; [| done | congruence].
    rewrite lookup_insert_ne by apply backup_not_settings.
    destruct (decide (csv_file = settings)) as [->|Hcs].
    + by rewrite lookup_delete_eq.
    + rewrite lookup_delete_ne by done. congruence.
  - simplify_eq. congruence.
Qed.

(** C10.  When the configuration directory has no settings.yaml (and the
    backup, if asked for, is a plain rename of a file), the call leaves the
    file system and its log exactly as the conversion and backup left
    them: no settings file exists afterwards and nothing is appended
    anywhere.  If the conversion and backup succeeded the call returns
    true. *)
Theorem settings_skipped_when_absent
    (csv_file config_dir : string) (backup : bool) (w : world) :
  let settings := Path.join config_dir "settings.yaml" in
  let conv := convert_and_backup csv_file config_dir backup w in
  let run := migrate_csv_to_rules csv_file config_dir backup w in
  fs w !! settings = None ->
  (backup = true ->
   is_dir (fs w) csv_file = false /\ is_dir (fs w) (csv_file +:+ ".bak") = false) ->
  fs (snd run) !! settings = None
  /\ fs (snd run) = fs (snd conv)
  /\ fs_log (snd run) = fs_log (snd conv)
  /\ (fst conv = Ok tt -> run = (Ok true, snd conv)).
Proof.
  intros settings conv run Habs Hnormal.
  pose proof (convert_and_backup_keeps_absent csv_file config_dir backup w Habs Hnormal)
    as Hkeep.
  fold conv in Hkeep.
  assert (Hrun : fs (snd run) = fs (snd conv) /\ fs_log (snd run) = fs_log (snd conv)
                 /\ (fst conv = Ok tt -> run = (Ok true, snd conv))).
  { subst run conv.
    destruct (convert_and_backup csv_file config_dir backup w) as [[[]|e] w1] eqn:Hconv;
      unfold migrate_csv_to_rules, try_except, bind; rewrite Hconv; simpl in *.
    - rewrite update_settings_absent by done. done.
    - destruct (is_Exception e); [|done].
      unfold the_colors, print, ret. simpl. done. }
  destruct Hrun as (Hfs & Hlog & Hok).
  rewrite Hfs. done.
Qed.

End SettingsAbsent.

(** ** The resolver and a failed conversion *)

Section Resolver.

Context {Co : Collaborators}.



(** The branch for the new format warns once when the rules are empty. *)
Lemma new_format_empty_warns_once
    (config : gmap string string) (config_dir : string) (migrate : bool)
    (w : world) (merchants_file : string) :
  config !! "_merchants_file" = Some merchants_file ->
  merchants_file <> "" ->
  config !! "_merchants_format" = Some "new" ->
  get_all_rules (fs w) (Some merchants_file) (default "first_match" (config !! "rule_mode"))
  = Returned [] ->
  exists w', check_merchant_migration config config_dir false migrate w = (Ok [], w')
             /\ warnings (stdout w') = S (warnings (stdout w)).
Proof.
  intros Hfile Hne Hformat Hrules.
  unfold check_merchant_migration. rewrite Hfile, Hformat.
  destruct merchants_file as [|c r]; [done|].
  rewrite bool_decide_eq_false_2 by done.
  rewrite bool_decide_eq_true_2 by done.
  unfold bind at 1. unfold call at 1. rewrite Hrules.
  eexists. split; [reflexivity|].
  unfold warnings. simpl. rewrite !List.filter_app, !length_app. simpl. lia.
Qed.

End Resolver.

(** ** Sample runs *)

Lemma csv_kept_unless_backed_up_witness :
  exists ok w',
    @migrate_csv_to_rules sample_collaborators sample_csv "/w/config" false w_batch
    = (Ok ok, w')
    /\ fs w' !! sample_csv = fs w_batch !! sample_csv.
Proof.
  destruct (@csv_kept_unless_backed_up sample_collaborators sample_csv "/w/config"
              false w_batch) as (ok & w' & Hrun & _ & Hkeep & _).
  - vm_compute. discriminate.
  - vm_compute. discriminate.
  - exists ok, w'. split; [exact Hrun | apply Hkeep; reflexivity].
Defined.


Lemma layout_outcome_two_valued_witness :
  perform_layout_migration "/w/config" w_fault
  = (Ok None,
     add_stderr "Error during migration: I/O error"
       (snd (move_into_namespace "/w/config" "/w/tally" w_fault)))
  /\ moves_only w_fault (snd (move_into_namespace "/w/config" "/w/tally" w_fault)).
Proof.
  apply (proj2 (layout_outcome_two_valued "/w/config" true w_fault)
           (OSError "I/O error")).
  vm_compute. reflexivity.
Defined.

Lemma layout_migration_declines_elsewhere_witness :
  migrate_v0_to_v1 "/srv/tally-settings" true w_batch = (Ok None, w_batch)
  /\ exists f, run_migrations "/srv/tally-settings" true w_batch
               = (Ok "/srv/tally-settings", set_faults f w_batch).
Proof.
  apply (layout_migration_declines_elsewhere "/srv/tally-settings" true w_batch).
  left. vm_compute. discriminate.
Defined.

Lemma layout_confirmation_witness :
  migrate_v0_to_v1 "/w/config" false w_batch = (Ok None, w_batch)
  /\ migrate_v0_to_v1 "/w/config" false w_asked
     = (Ok None, set_stdin [Line ""] (layout_prompted w_asked))
  /\ migrate_v0_to_v1 "/w/config" false (set_stdin [Line ""] w_asked)
     = perform_layout_migration "/w/config"
         (set_stdin [] (layout_prompted (set_stdin [Line ""] w_asked))).
Proof.
  split; [|split].
  - apply (proj1 (layout_confirmation "/w/config" w_batch eq_refl eq_refl)).
    reflexivity.
  - exact (proj1 (proj1 (proj2 (layout_confirmation "/w/config" w_asked eq_refl eq_refl))
                    eq_refl) eq_refl).
  - exact (proj2 (proj1 (proj2 (layout_confirmation "/w/config"
                                  (set_stdin [Line ""] w_asked) eq_refl eq_refl))
                    eq_refl) eq_refl eq_refl).
Defined.

Lemma get_schema_version_fails_soft_witness :
  fst (get_schema_version "/w/config" w_batch) = Ok 0
  /\ fst (get_schema_version "/w/config" w_stamped) = Ok 1.
Proof.
  split.
  - destruct (get_schema_version_fails_soft "/w/config" w_batch)
      as (v & f & Hrun & Habsent & _).
    rewrite Hrun. simpl. f_equal. apply Habsent. reflexivity.
  - destruct (get_schema_version_fails_soft "/w/config" w_stamped)
      as (v & f & Hrun & _ & _ & _ & Htext).
    destruct (Htext ("1" +:+ Str.nl) eq_refl eq_refl) as (_ & Hnum & _).
    rewrite Hrun. simpl. f_equal. apply (proj1 (Hnum 1 eq_refl)). reflexivity.
Defined.

Lemma settings_pointer_added_once_witness :
  exists added,
    fs (snd (update_settings "/w/config" (snd (update_settings "/w/config" w_batch))))
    = <["/w/config/settings.yaml" := File (Text (("currency: USD" +:+ Str.nl) +:+ added))]>
        (fs w_batch)
    /\ added = settings_comment +:+ settings_pointer.
Proof.
  destruct (settings_pointer_added_once "/w/config" w_batch ("currency: USD" +:+ Str.nl))
    as (added & Hfs & _ & _ & Hfull).
  - reflexivity.
  - exists added. split; [exact Hfs | apply Hfull; reflexivity].
Defined.

Lemma settings_skipped_when_absent_witness :
  fs (snd (@migrate_csv_to_rules sample_collaborators sample_csv "/w/config" true
             w_no_settings)) !! "/w/config/settings.yaml" = None
  /\ fst (@migrate_csv_to_rules sample_collaborators sample_csv "/w/config" true
            w_no_settings) = Ok true.
Proof.
  destruct (@settings_skipped_when_absent sample_collaborators sample_csv "/w/config"
              true w_no_settings) as (Habsent & _ & _ & Hok).
  - reflexivity.
  - intros _. split; reflexivity.
  - split; [exact Habsent|]. rewrite Hok; reflexivity.
Defined.


(** ** Where the code parts from the specification *)


(** C3, refuted as stated.  A step that failed on an I/O error and a step
    the user declined hand the caller the same value, [None], and
    [run_migrations] returns the same directory for both: the failure is
    told apart only by the line on the standard error. *)
Lemma failure_returns_what_decline_returns :
  fst (migrate_v0_to_v1 "/w/config" true w_fault) = Ok None
  /\ stderr (snd (migrate_v0_to_v1 "/w/config" true w_fault))
     = ["Error during migration: I/O error"]
  /\ fst (migrate_v0_to_v1 "/w/config" false w_asked) = Ok None
  /\ stderr (snd (migrate_v0_to_v1 "/w/config" false w_asked)) = []
  /\ fst (run_migrations "/w/config" true w_fault)
     = fst (run_migrations "/w/config" false w_asked).
Proof. vm_compute. repeat split; reflexivity. Qed.


(** C6, refuted as stated.  The answer N is not the answer n, yet it
    declines: nothing is moved. *)
Lemma capital_N_declines :
  "N" <> "n"
  /\ fst (migrate_v0_to_v1 "/w/config" false w_capital) = Ok None
  /\ fs (snd (migrate_v0_to_v1 "/w/config" false w_capital)) = fs w_capital
  /\ fs_log (snd (migrate_v0_to_v1 "/w/config" false w_capital)) = [].
Proof. vm_compute. repeat split; (reflexivity || discriminate). Qed.

(** C7, refuted as stated.  A marker file that holds -1 gives the version
    -1, which is negative. *)
Lemma negative_marker_negative_version :
  get_schema_version "/w/config" w_negative = (Ok (-1), w_negative) /\ -1 < 0.
Proof. split; [vm_compute; reflexivity | lia]. Qed.

(** C9, the code at the failing input.  A forced conversion of a CSV file
    with no rules succeeds, the resolver returns the empty rule set of the
    new file, and with quiet mode off no line on the standard output is a
    no-rules warning. *)
Theorem migrated_empty_rules_no_warning :
  let run := @check_merchant_migration sample_collaborators csv_config "/w/config"
               false true w_empty_csv in
  fst run = Ok [] /\ warnings (stdout (snd run)) = 0%nat.
Proof. vm_compute. split; reflexivity. Qed.

(** ** Examples *)

Example basename_config : Path.basename "/home/u/config" = "config".
Proof. reflexivity. Qed.

Example basename_trailing_slash : Path.basename "/home/u/config/" = "".
Proof. reflexivity. Qed.

Example dirname_config : Path.dirname "/home/u/config" = "/home/u".
Proof. reflexivity. Qed.

Example dirname_relative : Path.dirname "config" = "".
Proof. reflexivity. Qed.

Example dirname_root : Path.dirname "/config" = "/".
Proof. reflexivity. Qed.

Example join_plain : Path.join "/home/u" "tally" = "/home/u/tally".
Proof. reflexivity. Qed.

Example join_root : Path.join "/" "tally" = "/tally".
Proof. reflexivity. Qed.

Example py_int_marker : Str.py_int (Str.strip ("1" +:+ Str.nl)) = Some 1.
Proof. reflexivity. Qed.

Example py_int_negative : Str.py_int " -12 " = Some (-12).
Proof. reflexivity. Qed.

Example py_int_underscore : Str.py_int "1_000" = Some 1000.
Proof. reflexivity. Qed.

Example py_int_bad : Str.py_int "1__0" = None /\ Str.py_int "v1" = None /\ Str.py_int "" = None.
Proof. repeat split; reflexivity. Qed.

Example py_int_blanks :
  Str.py_int (String "028" "1") = None
  /\ Str.py_int (Str.strip (String "028" "1")) = Some 1
  /\ Str.py_int (String "009" "1") = Some 1.
Proof. repeat split; reflexivity. Qed.

Example of_nat_sample : Str.of_nat 0 = "0" /\ Str.of_nat 42 = "42" /\ Str.of_nat 100 = "100".
Proof. repeat split; reflexivity. Qed.


Example strip_lower_answer : Str.lower (Str.strip "  N ") = "n".
Proof. reflexivity. Qed.

Example occurrences_pointer :
  Str.occurrences pointer_key ("a: b" +:+ settings_comment +:+ settings_pointer) = 1%nat.
Proof. reflexivity. Qed.

Example layout_migration_applied :
  fst (run_migrations "/w/config" true w_batch) = Ok "/w/tally/config"
  /\ fs (snd (run_migrations "/w/config" true w_batch)) !! "/w/tally/config/.tally-schema"
     = Some (File (Text ("1" +:+ Str.nl)))
  /\ fs (snd (run_migrations "/w/config" true w_batch)) !! "/w/config" = None.
Proof. vm_compute. repeat split; reflexivity. Qed.

Example conversion_of_three_rows :
  let run := @migrate_csv_to_rules sample_collaborators sample_csv "/w/config" true w_batch in
  fst run = Ok true
  /\ fs (snd run) !! sample_csv = None
  /\ fs (snd run) !! (sample_csv +:+ ".bak") = Some three_rows
  /\ (exists text, fs (snd run) !! "/w/config/settings.yaml" = Some (File (Text text))
                   /\ Str.occurrences pointer_key text = 1%nat).
Proof.
  vm_compute. repeat split; try reflexivity.
  eexists. split; reflexivity.
Qed.

(** * Further properties *)

(** ** The pipeline as a whole *)

#[local] Instance input_untouched_preorder : PreOrder input_untouched.
Proof.
  split.
  - intros w. done.
  - intros a b c H1 H2. unfold input_untouched in *. congruence.
Qed.

(** A directory whose marker holds a numeral of 1 or more in plain text
    is left alone: when the read of the marker is not faulted, [run_migrations] returns
    the directory and the world differs only by the fault consumed.  No
    prompt, no output, no mutation, whatever the directory's name and the
    flag. *)
Theorem stamped_directory_is_left_alone
    (d : string) (skip : bool) (w : world) (text : string) (v : Z) :
  fs w !! marker_of d = Some (File (Text text)) ->
  Str.plain text = true ->
  Str.py_int (Str.strip text) = Some v ->
  SCHEMA_VERSION <= v ->
  hd None (faults w) = None ->
  run_migrations d skip w = (Ok d, set_faults (tl (faults w)) w).
Proof.
  intros Hm _ Hv Hle Hf.
  unfold run_migrations, bind.
  rewrite (get_schema_version_reads d w text v Hm Hv Hf).
  apply Z.leb_le in Hle. by rewrite Hle.
Qed.

(** What an applied layout migration leaves behind. *)
Lemma perform_layout_migration_applied (d : string) (w : world) (nc : string) (w' : world) :
  perform_layout_migration d w = (Ok (Some nc), w') ->
  nc = Path.join (Path.join (cwd w) "tally") "config"
  /\ fs w' !! marker_of nc = Some (File (Text ("1" +:+ Str.nl)))
  /\ exists moves,
       fs_log w' = fs_log w ++ moves
                   ++ [OpTruncate (marker_of nc); OpWrite (marker_of nc) ("1" +:+ Str.nl)]
       /\ forallb is_move_op moves = true.
Proof.
  unfold perform_layout_migration. unfold bind at 1. unfold os_path_abspath.
  set (t := Path.join (cwd w) "tally").
  unfold try_except, bind. intros E.
  pose proof (move_into_namespace_yields d t w) as Hy.
  pose proof (move_into_namespace_moves_only d t w) as (moves & Hlog & Hmoves).
  destruct (move_into_namespace d t w) as [[a|e] w1]; simpl in Hy, Hlog.
  2:{ unfold os_error in Hy. rewrite Hy in E. unfold print_err, ret in E. simplify_eq. }
  subst a. unfold write_schema_marker in E. fold (marker_of (Path.join t "config")) in E.
  destruct (write_file _ _ w1) as [rw w2] eqn:Hw.
  pose proof (yields_write_file (marker_of (Path.join t "config")) ("1" +:+ Str.nl) w1) as Hyw.
  rewrite Hw in Hyw. simpl in Hyw.
  apply write_file_outcome in Hw as [(-> & Hfs2 & Hlog2) | (e & ->)].
  2:{ unfold os_error in Hyw. rewrite Hyw in E. unfold print_err, ret in E. simplify_eq. }
  unfold print, ret in E. simplify_eq. simpl.
  split; [done|]. split.
  - by rewrite Hfs2, lookup_insert_eq.
  - exists moves. rewrite Hlog2, Hlog, <- app_assoc. done.
Qed.

(** When [run_migrations] returns another directory than it was given, the
    migration was applied in full: the marker of the returned directory
    holds 1, writing it was the last mutation, before it only directories
    were created and moved, and reading the version back gives 1. *)
Theorem applied_migration_is_stamped
    (d : string) (skip : bool) (w : world) (r : string) (w' : world) :
  run_migrations d skip w = (Ok r, w') ->
  r <> d ->
  fs w' !! marker_of r = Some (File (Text ("1" +:+ Str.nl)))
  /\ (exists moves,
        fs_log w' = fs_log w ++ moves
                    ++ [OpTruncate (marker_of r); OpWrite (marker_of r) ("1" +:+ Str.nl)]
        /\ forallb is_move_op moves = true)
  /\ (hd None (faults w') = None -> fst (get_schema_version r w') = Ok SCHEMA_VERSION).
Proof.
  intros Hrun Hne.
  unfold run_migrations, bind in Hrun.
  destruct (get_schema_version_quiet d w) as (v & f & Hg). rewrite Hg in Hrun.
  destruct (SCHEMA_VERSION <=? v)%Z; [unfold ret in Hrun; congruence|].
  destruct (v <? 1)%Z; [| unfold ret in Hrun; congruence].
  destruct (migrate_v0_to_v1_cases d skip (set_faults f w))
    as [(w0 & Hm & _) | (w0 & Hm & (Hfs0 & Hlog0) & _)]; rewrite Hm in Hrun.
  { unfold ret in Hrun. congruence. }
  destruct (perform_layout_migration d w0) as [[[nc|]|e] w1] eqn:Hp;
    try (unfold ret in Hrun; congruence).
  destruct nc as [|x nc]; [unfold ret in Hrun; congruence|].
  unfold ret in Hrun. injection Hrun as <- <-.
  apply perform_layout_migration_applied in Hp as (_ & Hmark & moves & Hlog & Hmoves).
  simpl in Hlog0. rewrite Hlog0 in Hlog.
  split; [exact Hmark|]. split; [eauto|].
  intros Hf.
  by rewrite (get_schema_version_reads _ _ _ 1 Hmark eq_refl Hf).
Qed.

(** ** What the pipeline may change *)

Lemma bind_run {A B} (m : M A) (k : A -> M B) (w : world) :
  bind m k w = match m w with
               | (Ok a, w') => k a w'
               | (Raise e, w') => (Raise e, w')
               end.
Proof. reflexivity. Qed.

#[local] Instance layout_only_preorder c d : PreOrder (layout_only c d).
Proof.
  split.
  - intros w Hc. split; [done|]. exists []. by rewrite app_nil_r.
  - intros w1 w2 w3 H12 H23 Hc.
    destruct (H12 Hc) as (Hc2 & o1 & L1 & F1).
    destruct (H23 Hc2) as (Hc3 & o2 & L2 & F2).
    split; [done|]. exists (o1 ++ o2).
    rewrite L2, L1, app_assoc, forallb_app, F1, F2. done.
Qed.

Ltac prim_layout :=
  let w := fresh "w" in
  let Hc := fresh "Hc" in
  intros w Hc;
  unfold bind, next_fault, get_world, raise, ret;
  repeat (case_match; simpl in *; simplify_eq);
  simpl; (split; [done|]);
  first [ by (exists []; rewrite app_nil_r)
        | eexists [_]; split; [reflexivity|]; simpl;
          rewrite ?String.eqb_refl, ?orb_true_r; done ].

Lemma layout_only_print c d s : preserves (layout_only c d) (print s).
Proof. unfold print. prim_layout. Qed.

Lemma layout_only_print_err c d s : preserves (layout_only c d) (print_err s).
Proof. unfold print_err. prim_layout. Qed.

Lemma layout_only_makedirs c d :
  preserves (layout_only c d) (os_makedirs (Path.join c "tally")).
Proof. unfold os_makedirs. prim_layout. Qed.

Lemma layout_only_open_marker c d :
  preserves (layout_only c d)
    (open_write (marker_of (Path.join (Path.join c "tally") "config"))).
Proof. unfold open_write. prim_layout. Qed.

Lemma layout_only_write_marker c d s :
  preserves (layout_only c d)
    (write_str (marker_of (Path.join (Path.join c "tally") "config")) s).
Proof. unfold write_str. prim_layout. Qed.

Lemma layout_only_move c d src dst :
  String.eqb src d || String.eqb src (Path.join c "data")
  || String.eqb src (Path.join c "output") = true ->
  preserves (layout_only c d) (shutil_move src dst).
Proof.
  intros Hsrc w Hc.
  pose proof (env_same_shutil_move src dst w) as (Hcwd & _).
  destruct (shutil_move src dst w) as [r w'] eqn:Hm. simpl in *.
  split; [congruence|].
  apply shutil_move_outcome in Hm
    as [(_ & [[_ Hlog] | (rd & _ & _ & Hlog)]) | (_ & _ & Hlog)].
  - exists []. by rewrite app_nil_r.
  - exists [OpRename src rd]. split; [done|]. simpl. by rewrite Hsrc.
  - exists []. by rewrite app_nil_r.
Qed.

Lemma layout_only_subdir c d subdir :
  subdir = "data" \/ subdir = "output" ->
  preserves (layout_only c d)
    (let* old_path := os_path_abspath subdir in
     let* there := os_path_isdir old_path in
     if there then
       let new_path := Path.join (Path.join c "tally") subdir in
       print ("  Moving " +:+ subdir +:+ "/ -> tally/" +:+ subdir +:+ "/") ;;;
       shutil_move old_path new_path
     else ret tt).
Proof.
  intros Hsub w Hc.
  set (moving := print ("  Moving " +:+ subdir +:+ "/ -> tally/" +:+ subdir +:+ "/") ;;;
                 shutil_move (Path.join c subdir) (Path.join (Path.join c "tally") subdir)).
  assert (E : (let* old_path := os_path_abspath subdir in
               let* there := os_path_isdir old_path in
               if there then
                 let new_path := Path.join (Path.join c "tally") subdir in
                 print ("  Moving " +:+ subdir +:+ "/ -> tally/" +:+ subdir +:+ "/") ;;;
                 shutil_move old_path new_path
               else ret tt) w
              = (if is_dir (fs w) (Path.join c subdir) then moving else ret tt) w).
  { unfold bind at 1. unfold os_path_abspath. rewrite Hc.
    unfold bind at 1. unfold os_path_isdir. done. }
  rewrite E. clear E.
  destruct (is_dir (fs w) (Path.join c subdir)).
  - refine (preserves_bind (layout_only c d) _ _ _ _ w Hc).
    + apply layout_only_print.
    + intros _. apply layout_only_move.
      destruct Hsub as [-> | ->]; rewrite String.eqb_refl, ?orb_true_r; done.
  - by apply (preserves_ret (layout_only c d)).
Qed.

Lemma layout_only_move_into_namespace c d :
  preserves (layout_only c d) (move_into_namespace d (Path.join c "tally")).
Proof.
  unfold move_into_namespace. simpl for_each.
  apply (preserves_bind (layout_only c d)); [apply layout_only_makedirs | intros _].
  apply (preserves_bind (layout_only c d)); [apply layout_only_print | intros _].
  apply (preserves_bind (layout_only c d)).
  { apply layout_only_move. by rewrite String.eqb_refl. }
  intros _.
  apply (preserves_bind (layout_only c d)); [| intros _; apply (preserves_ret (layout_only c d))].
  apply (preserves_bind (layout_only c d)); [by apply layout_only_subdir; left | intros _].
  apply (preserves_bind (layout_only c d)); [by apply layout_only_subdir; right | intros _].
  apply (preserves_ret (layout_only c d)).
Qed.

Lemma layout_only_perform c d : preserves (layout_only c d) (perform_layout_migration d).
Proof.
  intros w Hc.
  assert (E : perform_layout_migration d w
              = try_except
                  (let* new_config := move_into_namespace d (Path.join c "tally") in
                   write_schema_marker new_config ;;;
                   print "✓ Migrated to ./tally/" ;;;
                   ret (Some new_config))
                  is_OSError
                  (fun e =>
                     print_err ("Error during migration: " +:+ exn_str e) ;;;
                     ret None) w).
  { unfold perform_layout_migration. unfold bind at 1. unfold os_path_abspath.
    by rewrite Hc. }
  rewrite E. clear E.
  refine (preserves_try_except (layout_only c d) _ _ _ _ _ w Hc).
  - intros w1 Hc1.
    pose proof (layout_only_move_into_namespace c d w1 Hc1) as Hmv.
    pose proof (move_into_namespace_yields d (Path.join c "tally") w1) as Hy.
    rewrite bind_run.
    destruct (move_into_namespace d (Path.join c "tally") w1) as [[nc|e] w2];
      simpl in Hy, Hmv; [| exact Hmv].
    subst nc.
    assert (Hrest : preserves (layout_only c d)
              (write_schema_marker (Path.join (Path.join c "tally") "config") ;;;
               print "✓ Migrated to ./tally/" ;;;
               ret (Some (Path.join (Path.join c "tally") "config")))).
    { unfold write_schema_marker, write_file.
      fold (marker_of (Path.join (Path.join c "tally") "config")).
      pose proof (layout_only_open_marker c d). pose proof (layout_only_write_marker c d).
      pose proof (layout_only_print c d).
      repeat first [ done | preserves_step ]. }
    destruct Hmv as (Hc2 & o1 & L1 & F1).
    destruct (Hrest w2 Hc2) as (Hc3 & o2 & L2 & F2).
    split; [exact Hc3|]. exists (o1 ++ o2).
    rewrite L2, L1, app_assoc, forallb_app, F1, F2. done.
  - intros e.
    apply (preserves_bind (layout_only c d)); [apply layout_only_print_err | intros _].
    apply (preserves_ret (layout_only c d)).
Qed.

(** Whatever happens, the only mutations [run_migrations] carries out are
    creating ./tally, moving the configuration directory, ./data and
    ./output, and writing the marker of ./tally/config: no other file is
    written and no other directory is created or moved. *)
Theorem run_migrations_mutations (d : string) (skip : bool) (w : world) :
  exists ops,
    fs_log (snd (run_migrations d skip w)) = fs_log w ++ ops
    /\ forallb (layout_op_allowed (cwd w) d) ops = true.
Proof.
  assert (Hnone : exists ops, fs_log w = fs_log w ++ ops
                              /\ forallb (layout_op_allowed (cwd w) d) ops = true).
  { exists []. by rewrite app_nil_r. }
  unfold run_migrations, bind.
  destruct (get_schema_version_quiet d w) as (v & f & ->).
  destruct (SCHEMA_VERSION <=? v)%Z; [exact Hnone|].
  destruct (v <? 1)%Z; [| exact Hnone].
  destruct (migrate_v0_to_v1_cases d skip (set_faults f w))
    as [(w0 & -> & (_ & Hlog0)) | (w0 & -> & (_ & Hlog0) & (Hc0 & _) & _)];
    simpl in Hlog0.
  { simpl. rewrite Hlog0. exact Hnone. }
  simpl in Hc0.
  destruct (layout_only_perform (cwd w) d w0 Hc0) as (_ & ops & Hlog & Hall).
  rewrite Hlog0 in Hlog.
  destruct (perform_layout_migration d w0) as [[[[|x nc]|]|e] w1]; simpl in *; eauto.
Qed.

(** ** Runs that nobody attends *)

Ltac prim_input :=
  let w := fresh "w" in
  intros w;
  unfold input_untouched, bind, next_fault, get_world, raise, ret;
  repeat (case_match; simpl in *; simplify_eq);
  simpl; try done.

Lemma input_untouched_read {A} (f : world -> result A) :
  preserves input_untouched (fun w => (f w, w)).
Proof. apply (preserves_read input_untouched). Qed.

Lemma input_untouched_next_fault : preserves input_untouched next_fault.
Proof. unfold next_fault. prim_input. Qed.

Lemma input_untouched_print s : preserves input_untouched (print s).
Proof. unfold print. prim_input. Qed.

Lemma input_untouched_print_err s : preserves input_untouched (print_err s).
Proof. unfold print_err. prim_input. Qed.

Lemma input_untouched_read_text p : preserves input_untouched (read_text p).
Proof. unfold read_text. prim_input. Qed.

Lemma input_untouched_open_write p : preserves input_untouched (open_write p).
Proof. unfold open_write. prim_input. Qed.

Lemma input_untouched_open_append p : preserves input_untouched (open_append p).
Proof. unfold open_append. prim_input. Qed.

Lemma input_untouched_write_str p s : preserves input_untouched (write_str p s).
Proof. unfold write_str. prim_input. Qed.

Lemma input_untouched_os_makedirs p : preserves input_untouched (os_makedirs p).
Proof. unfold os_makedirs. prim_input. Qed.

Lemma input_untouched_shutil_move s d : preserves input_untouched (shutil_move s d).
Proof. unfold shutil_move. prim_input. Qed.

#[export] Hint Resolve input_untouched_read input_untouched_next_fault
  input_untouched_print input_untouched_print_err input_untouched_read_text
  input_untouched_open_write input_untouched_open_append input_untouched_write_str
  input_untouched_os_makedirs input_untouched_shutil_move : frame.

Lemma input_untouched_get_schema_version d :
  preserves input_untouched (get_schema_version d).
Proof. unfold get_schema_version. preserves_auto. Qed.

Lemma input_untouched_perform d : preserves input_untouched (perform_layout_migration d).
Proof.
  unfold perform_layout_migration, move_into_namespace, write_schema_marker, write_file.
  preserves_auto.
Qed.

Lemma migrate_v0_to_v1_unprompted d skip w :
  skip = true \/ stdin_tty w = false ->
  input_untouched w (snd (migrate_v0_to_v1 d skip w)).
Proof.
  intros H. unfold migrate_v0_to_v1.
  destruct (negb (String.eqb (Path.basename d) "config")); [done|].
  rewrite bind_run. unfold os_getcwd.
  destruct (negb (String.eqb (Path.dirname d) (cwd w))); [done|].
  destruct skip; simpl.
  - apply input_untouched_perform.
  - destruct H as [H|H]; [done|].
    rewrite bind_run. unfold sys_stdin_isatty. rewrite H. done.
Qed.

(** With the confirmation skipped, or without an interactive input
    stream, [run_migrations] reads nothing from the standard input: it
    never waits for an answer. *)
Theorem unattended_run_reads_no_input (d : string) (skip : bool) (w : world) :
  skip = true \/ stdin_tty w = false ->
  stdin (snd (run_migrations d skip w)) = stdin w.
Proof.
  intros H. unfold run_migrations. rewrite bind_run.
  destruct (get_schema_version_quiet d w) as (v & f & ->).
  destruct (SCHEMA_VERSION <=? v)%Z; [done|].
  destruct (v <? 1)%Z; [|done].
  rewrite bind_run.
  pose proof (migrate_v0_to_v1_unprompted d skip (set_faults f w) H) as Hm.
  unfold input_untouched in Hm.
  destruct (migrate_v0_to_v1 d skip (set_faults f w)) as [[[[|x r]|]|e] w1];
    simpl in *; done.
Qed.

(** A regular file named tally in the working directory blocks the layout
    migration before anything is moved: the step reports the error,
    returns [None] and leaves every file and directory where it was. *)
Theorem tally_file_blocks_migration (d : string) (w : world) (data : file_data) :
  Path.basename d = "config" ->
  Path.dirname d = cwd w ->
  fs w !! Path.join (cwd w) "tally" = Some (File data) ->
  exists e,
    migrate_v0_to_v1 d true w
    = (Ok None,
       add_stderr ("Error during migration: " +:+ exn_str e)
         (set_faults (tl (faults w)) w)).
Proof.
  intros Hb Hd Ht.
  unfold migrate_v0_to_v1. rewrite Hb. simpl.
  rewrite bind_run. unfold os_getcwd. rewrite Hd, String.eqb_refl. simpl.
  unfold perform_layout_migration. rewrite bind_run. unfold os_path_abspath.
  unfold try_except, move_into_namespace. rewrite !bind_run.
  unfold os_makedirs. rewrite bind_run. unfold next_fault.
  destruct (faults w) as [|[k|] fl] eqn:Hf; simpl; rewrite ?Ht; simpl.
  - exists (OSError "File exists").
    assert (Hw : set_faults [] w = w) by (by rewrite <- Hf, set_faults_same).
    by rewrite Hw.
  - by exists (OSError "I/O error").
  - by exists (OSError "File exists").
Qed.

(** ** A migration that stops half way says so *)

#[local] Instance stderr_same_preorder : PreOrder stderr_same.
Proof.
  split.
  - intros w. done.
  - intros a b c H1 H2. unfold stderr_same in *. congruence.
Qed.

Ltac prim_stderr :=
  let w := fresh "w" in
  intros w;
  unfold stderr_same, bind, next_fault, get_world, raise, ret;
  repeat (case_match; simpl in *; simplify_eq);
  simpl; try done.

Lemma stderr_same_read {A} (f : world -> result A) :
  preserves stderr_same (fun w => (f w, w)).
Proof. apply (preserves_read stderr_same). Qed.

Lemma stderr_same_next_fault : preserves stderr_same next_fault.
Proof. unfold next_fault. prim_stderr. Qed.

Lemma stderr_same_print s : preserves stderr_same (print s).
Proof. unfold print. prim_stderr. Qed.

Lemma stderr_same_open_write p : preserves stderr_same (open_write p).
Proof. unfold open_write. prim_stderr. Qed.

Lemma stderr_same_write_str p s : preserves stderr_same (write_str p s).
Proof. unfold write_str. prim_stderr. Qed.

Lemma stderr_same_os_makedirs p : preserves stderr_same (os_makedirs p).
Proof. unfold os_makedirs. prim_stderr. Qed.

Lemma stderr_same_shutil_move s d : preserves stderr_same (shutil_move s d).
Proof. unfold shutil_move. prim_stderr. Qed.

#[export] Hint Resolve stderr_same_read stderr_same_next_fault stderr_same_print
  stderr_same_open_write stderr_same_write_str stderr_same_os_makedirs
  stderr_same_shutil_move : frame.

Lemma stderr_same_move_into_namespace d t :
  preserves stderr_same (move_into_namespace d t).
Proof. unfold move_into_namespace. preserves_auto. Qed.

(** The migration proper returns [None] only through its handler, which
    has told the error. *)
Lemma perform_layout_migration_none d w w' :
  perform_layout_migration d w = (Ok None, w') ->
  exists e, stderr w' = stderr w ++ ["Error during migration: " +:+ exn_str e].
Proof.
  unfold perform_layout_migration. unfold bind at 1. unfold os_path_abspath.
  set (t := Path.join (cwd w) "tally").
  unfold try_except, bind.
  pose proof (move_into_namespace_yields d t w) as Hy.
  pose proof (stderr_same_move_into_namespace d t w) as Hs1.
  destruct (move_into_namespace d t w) as [[a|e] w1]; simpl in Hy, Hs1.
  - subst a.
    pose proof (yields_open_write (Path.join (Path.join t "config") ".tally-schema") w1) as Ho.
    pose proof (stderr_same_open_write (Path.join (Path.join t "config") ".tally-schema") w1)
      as Hs2.
    unfold write_schema_marker, write_file, bind.
    destruct (open_write _ w1) as [[[]|e] w2]; simpl in Ho, Hs2.
    + pose proof (yields_write_str (Path.join (Path.join t "config") ".tally-schema")
                    ("1" +:+ Str.nl) w2) as Hw.
      pose proof (stderr_same_write_str (Path.join (Path.join t "config") ".tally-schema")
                    ("1" +:+ Str.nl) w2) as Hs3.
      destruct (write_str _ _ w2) as [[[]|e] w3]; simpl in Hw, Hs3.
      * simpl. intros [=].
      * unfold os_error in Hw. rewrite Hw. simpl. intros [= <-]. exists e. simpl.
        unfold stderr_same in *. congruence.
    + unfold os_error in Ho. rewrite Ho. simpl. intros [= <-]. exists e. simpl.
      unfold stderr_same in *. congruence.
  - unfold os_error in Hy. rewrite Hy. simpl. intros [= <-]. exists e. simpl.
    unfold stderr_same in *. congruence.
Qed.

(** The layout step either declines, leaving the files alone, or goes on
    to the migration proper, having written nothing to the standard
    error. *)
Lemma migrate_v0_to_v1_cases_stderr d skip w :
  (exists w', migrate_v0_to_v1 d skip w = (Ok None, w') /\ files_same w w')
  \/ (exists w', migrate_v0_to_v1 d skip w = perform_layout_migration d w'
                 /\ files_same w w' /\ stderr w' = stderr w /\ cwd w' = cwd w
                 /\ Path.dirname d = cwd w).
Proof.
  cut (forall res, res = migrate_v0_to_v1 d skip w ->
         (exists w', res = (Ok None, w') /\ files_same w w')
         \/ (exists w', res = perform_layout_migration d w'
                        /\ files_same w w' /\ stderr w' = stderr w /\ cwd w' = cwd w
                        /\ Path.dirname d = cwd w)).
  { intros H. by apply H. }
  intros res E. unfold migrate_v0_to_v1 in E.
  destruct (String.eqb (Path.basename d) "config") eqn:Hb; simpl in E;
    [| left; by exists w].
  unfold bind at 1 in E. unfold os_getcwd in E.
  destruct (String.eqb (Path.dirname d) (cwd w)) eqn:Hd; simpl in E;
    [| left; by exists w].
  apply String.eqb_eq in Hd.
  destruct skip; simpl in E.
  { right. exists w. by repeat split. }
  unfold bind at 1 in E. unfold sys_stdin_isatty in E.
  destruct (stdin_tty w) eqn:Ht; simpl in E; [| left; by exists w].
  unfold bind, print, try_except, input, ret in E. simpl in E.
  destruct (stdin w) as [|[answer| |] rest]; simpl in E;
    try (left; eexists; split; [exact E | by split]).
  destruct (String.eqb (Str.lower (Str.strip answer)) "n").
  - left. eexists; split; [exact E | by split].
  - right. eexists; split; [exact E |]. by repeat split.
Qed.

(** Whenever [run_migrations] returns, on plain inputs, it returns the
    directory it was given or ./tally/config under the working directory.
    When it returns the directory it was given although it has changed
    the file system, the migration stopped half way and the error was
    told on the standard error: no migration is left half done in
    silence. *)
Theorem partial_migration_is_reported
    (d : string) (skip : bool) (w : world) (r : string) (w' : world) :
  plain_inputs d w ->
  run_migrations d skip w = (Ok r, w') ->
  (r = d \/ r = Path.join (Path.join (cwd w) "tally") "config")
  /\ (r = d -> fs_log w' <> fs_log w ->
      exists e, stderr w' = stderr w ++ ["Error during migration: " +:+ exn_str e]).
Proof.
  intros _ Hrun. unfold run_migrations, bind in Hrun.
  destruct (get_schema_version_quiet d w) as (v & f & Hg). rewrite Hg in Hrun.
  assert (Hsame : forall w0, (Ok d, set_faults f w0) = (Ok r, w') -> w0 = w ->
            (r = d \/ r = Path.join (Path.join (cwd w) "tally") "config")
            /\ (r = d -> fs_log w' <> fs_log w ->
                exists e, stderr w' = stderr w
                                      ++ ["Error during migration: " +:+ exn_str e])).
  { intros w0 [= <- <-] ->. split; [by left|]. intros _ Hlog. by destruct Hlog. }
  destruct (SCHEMA_VERSION <=? v)%Z; [by apply (Hsame w)|].
  destruct (v <? 1)%Z; [| by apply (Hsame w)].
  clear Hsame.
  destruct (migrate_v0_to_v1_cases_stderr d skip (set_faults f w))
    as [(w1 & Hm & (_ & Hlog1)) | (w1 & Hm & (_ & Hlog1) & Herr1 & Hcwd1 & Hdir)];
    rewrite Hm in Hrun.
  - unfold ret in Hrun. injection Hrun as <- <-.
    split; [by left|]. intros _ Hlog. by destruct Hlog.
  - simpl in Herr1, Hcwd1, Hdir.
    destruct (perform_layout_migration_result d w1) as (o & w2 & Hp & Ho).
    rewrite Hp in Hrun. destruct Ho as [-> | ->].
    + unfold ret in Hrun. injection Hrun as <- <-.
      split; [by left|]. intros _ _.
      destruct (perform_layout_migration_none d w1 w2 Hp) as (e & He).
      exists e. by rewrite He, Herr1.
    + destruct (new_config_location (cwd w1)) as (Hnew_dir & x & r0 & Hnew).
      simpl in Hnew. rewrite Hnew in Hrun. unfold ret in Hrun.
      injection Hrun as <- <-. rewrite <- Hnew. rewrite Hcwd1.
      split; [by right|]. intros Heq. exfalso.
      apply Hnew_dir. simpl. rewrite Hcwd1, Heq. exact Hdir.
Qed.

(** ** What a conversion leaves behind *)

Lemma shutil_move_file src dst w d r w' :
  fs w !! src = Some (File d) ->
  is_dir (fs w) dst = false ->
  src <> dst ->
  shutil_move src dst w = (r, w') ->
  (r = Ok tt /\ fs w' = <[dst := File d]> (delete src (fs w)))
  \/ ((exists e, r = Raise e) /\ fs w' = fs w).
Proof.
  intros Hsrc Hdst Hne E.
  unfold shutil_move, shutil_real_dst, bind, get_world, next_fault, raise in E.
  rewrite Hdst in E.
  apply String.eqb_neq in Hne.
  destruct (faults w) as [|[k|] fl]; simpl in E; rewrite ?Hsrc, ?Hne in E;
    simplify_eq; simpl;
    first [ right; by eauto
          | left; split; [done|]; unfold fs_rename; by rewrite Hsrc ].
Qed.

Lemma real_dst_free m src dst rd :
  shutil_real_dst m src dst = inr rd -> rd = dst \/ path_exists m rd = false.
Proof.
  unfold shutil_real_dst. intros E.
  repeat case_match; simplify_eq; auto.
Qed.

Lemma backup_not_rules_file (csv_file config_dir : string) :
  csv_file +:+ ".bak" <> Path.join config_dir "merchants.rules".
Proof.
  rewrite join_relative by done. intros E.
  apply (f_equal last_char) in E. rewrite !last_char_app in E; done.
Qed.

Lemma backup_not_original (csv_file : string) : csv_file <> csv_file +:+ ".bak".
Proof.
  intros E. apply (f_equal String.length) in E.
  rewrite append_length in E. simpl in E. lia.
Qed.

Section ConversionResults.

Context {Co : Collaborators}.

(** A parse failure changes nothing: when the legacy table fails to load, or
    to convert, [migrate_csv_to_rules] returns false, no file is created,
    written or moved, and the one line printed tells the failure. *)
Theorem failed_parse_changes_nothing
    (csv_file config_dir : string) (backup : bool) (w : world) (msg : string) :
  load_merchant_rules (fs w) csv_file = Failed msg
  \/ (exists rules, load_merchant_rules (fs w) csv_file = Returned rules
                    /\ csv_to_merchants_content rules = Failed msg) ->
  migrate_csv_to_rules csv_file config_dir backup w
  = (Ok false,
     add_stdout ("  " +:+ RED (Colors_init w) +:+ "✗" +:+ RESET (Colors_init w)
                 +:+ " Migration failed: " +:+ msg) w).
Proof.
  intros H. unfold migrate_csv_to_rules, try_except.
  rewrite bind_run. unfold convert_and_backup. rewrite bind_run. unfold call at 1.
  destruct H as [-> | (rules & -> & Hc)]; [done|].
  rewrite bind_run. unfold call at 1. by rewrite Hc.
Qed.

Lemma migrate_true_inv csv_file config_dir backup w w' :
  migrate_csv_to_rules csv_file config_dir backup w = (Ok true, w') ->
  exists w1, convert_and_backup csv_file config_dir backup w = (Ok tt, w1)
             /\ update_settings config_dir w1 = (Ok tt, w').
Proof.
  unfold migrate_csv_to_rules, try_except. rewrite bind_run.
  destruct (convert_and_backup csv_file config_dir backup w) as [[[]|e] w1] eqn:Hc.
  - rewrite bind_run.
    destruct (update_settings config_dir w1) as [[[]|e] w2] eqn:Hu; simpl.
    + unfold ret. intros [= <-]. by exists w1.
    + destruct (is_Exception e); [|done].
      unfold bind, the_colors, print, ret. done.
  - destruct (is_Exception e); [|done].
    unfold bind, the_colors, print, ret. done.
Qed.

Lemma convert_and_backup_ok csv_file config_dir backup w w1 :
  let new_file := Path.join config_dir "merchants.rules" in
  convert_and_backup csv_file config_dir backup w = (Ok tt, w1) ->
  exists rules content,
    load_merchant_rules (fs w) csv_file = Returned rules
    /\ csv_to_merchants_content rules = Returned content
    /\ ((fs w1 = <[new_file := File (Text content)]> (fs w)
         /\ backup && path_exists (<[new_file := File (Text content)]> (fs w)) csv_file
            = false)
        \/ (backup = true
            /\ exists wm rm,
                 fs wm = <[new_file := File (Text content)]> (fs w)
                 /\ path_exists (fs wm) csv_file = true
                 /\ shutil_move csv_file (csv_file +:+ ".bak") wm = (Ok tt, rm)
                 /\ fs w1 = fs rm)).
Proof.
  intros new_file E. unfold convert_and_backup in E. fold new_file in E.
  rewrite bind_run in E. unfold call at 1 in E.
  destruct (load_merchant_rules (fs w) csv_file) as [rules|msg] eqn:Hl; [|done].
  rewrite bind_run in E. unfold call at 1 in E.
  destruct (csv_to_merchants_content rules) as [content|msg] eqn:Hc; [|done].
  exists rules, content. split; [done|]. split; [done|].
  rewrite bind_run in E.
  destruct (write_file new_file content w) as [rw w2] eqn:Hw.
  apply write_file_outcome in Hw as [(-> & Hfs2 & _) | (e & ->)]; [|done].
  rewrite bind_run in E. unfold the_colors at 1 in E.
  rewrite bind_run in E. unfold print at 1 in E.
  rewrite bind_run in E. unfold print at 1 in E.
  rewrite bind_run in E. unfold os_path_exists at 1 in E. simpl in E.
  rewrite Hfs2 in E.
  destruct (backup && path_exists _ csv_file) eqn:Hb.
  2:{ left. unfold ret in E. simplify_eq. simpl. by rewrite Hfs2. }
  apply andb_true_iff in Hb as [-> Hex].
  right. split; [done|].
  rewrite bind_run in E.
  destruct (shutil_move _ _ _) as [[[]|e] rm] eqn:Hm; [|done].
  unfold print in E. simplify_eq.
  eexists _, rm. split; [|split; [|split; [exact Hm|done]]]; simpl; by rewrite ?Hfs2.
Qed.

(** When [migrate_csv_to_rules] returns true for a CSV path that is not a
    directory and not the new file itself, merchants.rules holds exactly
    the text the converter made of the rules loaded from the CSV. *)
Theorem converted_file_holds_conversion
    (csv_file config_dir : string) (backup : bool) (w w' : world) :
  let new_file := Path.join config_dir "merchants.rules" in
  csv_file <> new_file ->
  is_dir (fs w) csv_file = false ->
  migrate_csv_to_rules csv_file config_dir backup w = (Ok true, w') ->
  exists rules content,
    load_merchant_rules (fs w) csv_file = Returned rules
    /\ csv_to_merchants_content rules = Returned content
    /\ fs w' !! new_file = Some (File (Text content)).
Proof.
  intros new_file Hne Hdir Hrun.
  apply migrate_true_inv in Hrun as (w1 & Hconv & Hset).
  apply convert_and_backup_ok in Hconv as (rules & content & Hl & Hc & Hfs).
  fold new_file in Hfs.
  exists rules, content. split; [done|]. split; [done|].
  pose proof (keeps_update_settings new_file config_dir
                (not_eq_sym (rules_file_not_settings config_dir)) w1) as Hk.
  unfold keeps in Hk. rewrite Hset in Hk. simpl in Hk. rewrite Hk.
  destruct Hfs as [[-> _] | (_ & wm & rm & Hwm & Hex & Hm & ->)].
  { by rewrite lookup_insert_eq. }
  apply shutil_move_outcome in Hm
    as [(_ & [[-> _] | (rd & Hrd & -> & _)]) | ((e & [=]) & _)];
    rewrite Hwm in *.
  { by rewrite lookup_insert_eq. }
  assert (Hcsv : exists d, <[new_file := File (Text content)]> (fs w) !! csv_file
                           = Some (File d)).
  { unfold path_exists in Hex. unfold is_dir in Hdir.
    rewrite lookup_insert_ne in Hex |- * by done.
    destruct (fs w !! csv_file) as [[d|]|]; [eauto | done | done]. }
  destruct Hcsv as (d & Hcsv).
  unfold fs_rename. rewrite Hcsv.
  assert (rd <> new_file).
  { apply real_dst_free in Hrd as [-> | Hfree].
    - apply backup_not_rules_file.
    - intros ->. unfold path_exists in Hfree. by rewrite lookup_insert_eq in Hfree. }
  rewrite lookup_insert_ne by done.
  rewrite lookup_delete_ne by done.
  by rewrite lookup_insert_eq.
Qed.

(** The backup keeps the original: when [migrate_csv_to_rules] with
    [backup] returns true for a CSV file whose .bak name is not a
    directory, the .bak path names the file the CSV path named, and the
    CSV path names nothing. *)
Theorem backup_keeps_original
    (csv_file config_dir : string) (w w' : world) (original : file_data) :
  fs w !! csv_file = Some (File original) ->
  is_dir (fs w) (csv_file +:+ ".bak") = false ->
  csv_file <> Path.join config_dir "merchants.rules" ->
  csv_file <> Path.join config_dir "settings.yaml" ->
  migrate_csv_to_rules csv_file config_dir true w = (Ok true, w') ->
  fs w' !! (csv_file +:+ ".bak") = Some (File original)
  /\ fs w' !! csv_file = None.
Proof.
  intros Hcsv Hbak Hnew Hsettings Hrun.
  apply migrate_true_inv in Hrun as (w1 & Hconv & Hset).
  apply convert_and_backup_ok in Hconv as (rules & content & Hl & Hc & Hfs).
  pose proof (keeps_update_settings (csv_file +:+ ".bak") config_dir
                (not_eq_sym (backup_not_settings csv_file config_dir)) w1) as Hk1.
  pose proof (keeps_update_settings csv_file config_dir (not_eq_sym Hsettings) w1) as Hk2.
  unfold keeps in Hk1, Hk2. rewrite Hset in Hk1, Hk2. simpl in Hk1, Hk2.
  rewrite Hk1, Hk2.
  destruct Hfs as [[_ Hno] | (_ & wm & rm & Hwm & Hex & Hm & ->)].
  { simpl in Hno. unfold path_exists in Hno.
    rewrite lookup_insert_ne, Hcsv in Hno by done. done. }
  assert (Hsrc : fs wm !! csv_file = Some (File original)).
  { by rewrite Hwm, lookup_insert_ne. }
  assert (Hdst : is_dir (fs wm) (csv_file +:+ ".bak") = false).
  { unfold is_dir in *. rewrite Hwm.
    rewrite lookup_insert_ne by (apply not_eq_sym, backup_not_rules_file). done. }
  destruct (shutil_move_file _ _ _ _ _ _ Hsrc Hdst (backup_not_original csv_file) Hm)
    as [(_ & ->) | ((e & [=]) & _)].
  split.
  - by rewrite lookup_insert_eq.
  - rewrite lookup_insert_ne by (apply not_eq_sym, backup_not_original).
    by rewrite lookup_delete_eq.
Qed.

(** No rollback: when the conversion and the backup have succeeded but
    settings.yaml is a directory or does not decode, the call returns
    false, and the new file and the backup stay as they are. *)
Theorem unreadable_settings_fails_late
    (csv_file config_dir : string) (backup : bool) (w w1 : world) :
  convert_and_backup csv_file config_dir backup w = (Ok tt, w1) ->
  fs w1 !! Path.join config_dir "settings.yaml" = Some Dir
  \/ fs w1 !! Path.join config_dir "settings.yaml" = Some (File NotUtf8) ->
  exists w',
    migrate_csv_to_rules csv_file config_dir backup w = (Ok false, w')
    /\ fs w' = fs w1 /\ fs_log w' = fs_log w1.
Proof.
  intros Hconv Hbad.
  unfold migrate_csv_to_rules, try_except. rewrite bind_run, Hconv.
  unfold update_settings, os_path_exists, path_exists, read_text, bind,
    next_fault, get_world, raise.
  destruct Hbad as [Hbad | Hbad]; rewrite Hbad;
    destruct (faults w1) as [|[k|] fl]; simpl; rewrite ?Hbad; simpl;
    eexists; (split; [reflexivity | done]).
Qed.

End ConversionResults.

(** ** The resolver: consent, input and warnings *)

Lemma files_same_read {A} (f : world -> result A) : preserves files_same (fun w => (f w, w)).
Proof. apply (preserves_read files_same). Qed.

Lemma files_same_print s : preserves files_same (print s).
Proof. intros w. done. Qed.

#[export] Hint Resolve files_same_read files_same_print : frame.

Lemma warnings_app (a b : list string) : warnings (a ++ b) = (warnings a + warnings b)%nat.
Proof. unfold warnings. by rewrite List.filter_app, length_app. Qed.

Lemma loaded_message_no_warning n file : is_no_rules_warning (loaded_message n file) = false.
Proof. reflexivity. Qed.

(** Turns a goal about one run into a goal about the computation. *)
Ltac as_preserves :=
  lazymatch goal with
  | |- ?R ?w (snd (?m ?w)) =>
      let Hp := fresh "Hp" in
      cut (preserves R m); [intros Hp; apply Hp |]
  end.

Section ResolverFacts.

Context {Co : Collaborators}.

Lemma files_same_continue_with_csv merchants_file rule_mode quiet csv_rules :
  preserves files_same (continue_with_csv merchants_file rule_mode quiet csv_rules).
Proof. unfold continue_with_csv, warn_no_rules. preserves_auto. Qed.

(** Without the force flag the conversion is decided by the answer: a run
    whose standard output is not a terminal, or whose answer is not y,
    decides against it and touches no file. *)
Lemma decide_migration_declines quiet w :
  stdout_tty w = false
  \/ (forall s rest, stdin w = Line s :: rest ->
                     String.eqb (Str.lower (Str.strip s)) "y" = false) ->
  exists w', decide_migration quiet false w = (Ok false, w') /\ files_same w w'.
Proof.
  intros H. unfold decide_migration. rewrite bind_run. unfold sys_stdout_isatty.
  cbv beta iota. rewrite andb_true_r.
  destruct (stdout_tty w) eqn:Ht.
  - destruct H as [H|H]; [done|].
    destruct quiet; simpl;
      unfold upgrade_banner, try_except, input, bind, the_colors, print, ret; simpl;
      (destruct (stdin w) as [|[s| |] rest] eqn:Hin; simpl;
       [ | rewrite (H s rest eq_refl); simpl | | ]);
      eexists; (split; [reflexivity | done]).
  - destruct quiet; simpl;
      unfold upgrade_banner, bind, the_colors, print, ret; simpl;
      eexists; (split; [reflexivity | done]).
Qed.

(** The resolver never changes a file without consent: without the force
    flag, when the standard output is not a terminal or the answer typed
    is ASCII text other than y (in any case and with any surrounding
    blanks), no file is created, written or moved, whatever the
    configuration says. *)
Theorem resolver_needs_consent
    (config : gmap string string) (config_dir : string) (quiet : bool) (w : world) :
  stdout_tty w = false
  \/ (forall s rest, stdin w = Line s :: rest ->
                     Str.is_ascii s = true
                     /\ String.eqb (Str.lower (Str.strip s)) "y" = false) ->
  files_same w (snd (check_merchant_migration config config_dir quiet false w)).
Proof.
  intros Hascii.
  assert (H : stdout_tty w = false
              \/ (forall s rest, stdin w = Line s :: rest ->
                                 String.eqb (Str.lower (Str.strip s)) "y" = false)).
  { destruct Hascii as [Ht | Hs]; [by left | right].
    intros s rest E. by destruct (Hs s rest E). }
  clear Hascii. unfold check_merchant_migration.
  assert (Hnone : forall mode, preserves files_same
            ((if negb quiet then print no_rules_found else ret tt) ;;;
             call (fun m => get_all_rules m None mode))).
  { intros mode. preserves_auto. }
  destruct (config !! "_merchants_file") as [[|c r]|]; [apply Hnone | | apply Hnone].
  destruct (bool_decide _).
  - rewrite bind_run. unfold call at 1.
    destruct (load_merchant_rules (fs w) (String c r)) as [csv_rules|msg]; [|done].
    rewrite bind_run.
    destruct (decide_migration_declines quiet w H) as (w' & -> & Hw').
    etransitivity; [exact Hw'|].
    unfold migrate_or_continue. apply files_same_continue_with_csv.
  - destruct (bool_decide _); [| apply Hnone].
    clear Hnone H. as_preserves. unfold warn_no_rules. preserves_auto.
Qed.

End ResolverFacts.

(** ** Colours *)

(** Colours need a terminal and yield to NO_COLOR: when the standard
    output is not a terminal, or NO_COLOR is set to a non-empty value,
    colours are off and every colour code is the empty string, whatever
    FORCE_COLOR and TERM say. *)
Theorem no_color_wins (w : world) :
  stdout_tty w = false \/ env_truthy w "NO_COLOR" = true ->
  supports_color w = false /\ Colors_init w = plain_colors.
Proof.
  unfold Colors_init, supports_color.
  intros [-> | Hno]; [done|].
  destruct (stdout_tty w); simpl; [by rewrite Hno | done].
Qed.

Lemma warnings_snoc (out : list string) (s : string) :
  warnings (out ++ [s])
  = (warnings out + (if is_no_rules_warning s then 1 else 0))%nat.
Proof. rewrite warnings_app. unfold warnings at 2. simpl. by destruct (is_no_rules_warning s). Qed.

Section ResolverOutput.

Context {Co : Collaborators}.

Lemma input_untouched_convert_and_backup csv_file config_dir backup :
  preserves input_untouched (convert_and_backup csv_file config_dir backup).
Proof. unfold convert_and_backup, write_file. preserves_auto. Qed.

Lemma input_untouched_update_settings config_dir :
  preserves input_untouched (update_settings config_dir).
Proof. unfold update_settings. preserves_auto. Qed.

Lemma input_untouched_migrate_csv_to_rules csv_file config_dir backup :
  preserves input_untouched (migrate_csv_to_rules csv_file config_dir backup).
Proof.
  unfold migrate_csv_to_rules.
  pose proof input_untouched_convert_and_backup. pose proof input_untouched_update_settings.
  preserves_auto.
Qed.

Lemma input_untouched_migrate_or_continue mf config_dir mode quiet csv_rules sm :
  preserves input_untouched (migrate_or_continue mf config_dir mode quiet csv_rules sm).
Proof.
  unfold migrate_or_continue, continue_with_csv, warn_no_rules.
  pose proof input_untouched_migrate_csv_to_rules.
  preserves_auto.
Qed.

Lemma decide_migration_unprompted quiet migrate w :
  migrate = true \/ stdout_tty w = false ->
  input_untouched w (snd (decide_migration quiet migrate w)).
Proof.
  intros H.
  assert (Hi : stdout_tty w && negb migrate = false).
  { destruct H as [-> | ->]; [apply andb_false_r | done]. }
  unfold decide_migration. rewrite bind_run. unfold sys_stdout_isatty.
  cbv beta iota. rewrite Hi. clear H Hi.
  as_preserves. unfold upgrade_banner. preserves_auto.
Qed.

(** With the force flag, or with a standard output that is not a terminal,
    the resolver reads nothing from the standard input: it never waits for
    an answer. *)
Theorem resolver_unattended_reads_no_input
    (config : gmap string string) (config_dir : string) (quiet migrate : bool) (w : world) :
  migrate = true \/ stdout_tty w = false ->
  stdin (snd (check_merchant_migration config config_dir quiet migrate w)) = stdin w.
Proof.
  intros H. change (input_untouched w
                      (snd (check_merchant_migration config config_dir quiet migrate w))).
  unfold check_merchant_migration.
  assert (Hnone : forall mode, preserves input_untouched
            ((if negb quiet then print no_rules_found else ret tt) ;;;
             call (fun m => get_all_rules m None mode))).
  { intros mode. preserves_auto. }
  destruct (config !! "_merchants_file") as [[|c r]|]; [apply Hnone | | apply Hnone].
  destruct (bool_decide _).
  - rewrite bind_run. unfold call at 1.
    destruct (load_merchant_rules (fs w) (String c r)) as [csv_rules|msg]; [|done].
    rewrite bind_run.
    pose proof (decide_migration_unprompted quiet migrate w H) as Hd.
    destruct (decide_migration quiet migrate w) as [[sm|e] w1]; simpl in Hd; [|exact Hd].
    etransitivity; [exact Hd|]. apply input_untouched_migrate_or_continue.
  - destruct (bool_decide _); [| apply Hnone].
    clear Hnone H. as_preserves. unfold warn_no_rules. preserves_auto.
Qed.

(** The new format: the resolver returns the rules of the file and touches
    nothing.  In quiet mode it prints nothing; otherwise it warns once
    when the rule set is empty and not at all when it is not. *)
Theorem new_format_warns_iff_empty
    (config : gmap string string) (config_dir : string) (quiet migrate : bool)
    (w : world) (merchants_file : string) (rules : list rule) :
  config !! "_merchants_file" = Some merchants_file ->
  merchants_file <> "" ->
  config !! "_merchants_format" = Some "new" ->
  get_all_rules (fs w) (Some merchants_file) (default "first_match" (config !! "rule_mode"))
  = Returned rules ->
  exists w',
    check_merchant_migration config config_dir quiet migrate w = (Ok rules, w')
    /\ files_same w w'
    /\ (quiet = true -> stdout w' = stdout w)
    /\ (quiet = false ->
        warnings (stdout w')
        = (warnings (stdout w) + (if rules is [] then 1 else 0))%nat).
Proof.
  intros Hfile Hne Hformat Hrules.
  unfold check_merchant_migration. rewrite Hfile, Hformat.
  destruct merchants_file as [|c r]; [done|].
  rewrite bool_decide_eq_false_2 by done.
  rewrite bool_decide_eq_true_2 by done.
  rewrite bind_run. unfold call at 1. rewrite Hrules.
  destruct quiet, rules as [|x rules];
    (eexists; split; [reflexivity|]; split; [done|]; split; [done|];
     intros Hq; try discriminate Hq;
     unfold warn_no_rules, bind, print, ret; cbn [snd stdout add_stdout];
     rewrite ?warnings_snoc, ?loaded_message_no_warning;
     repeat match goal with
       | |- context [is_no_rules_warning ?s] =>
           let b := eval vm_compute in (is_no_rules_warning s) in
           change (is_no_rules_warning s) with b
       end;
     cbv iota; lia).
Qed.

End ResolverOutput.

Section ResolverFallback.

Context {Co : Collaborators}.

(** Without a terminal and without the force flag a legacy CSV file is
    left as it is: the resolver touches no file, reads no input and
    returns what the rule engine makes of the CSV file.  The rules loaded
    for the announcement only decide the warning: one when there are
    none, and nothing is printed at all in quiet mode. *)
Theorem legacy_rules_without_consent
    (config : gmap string string) (config_dir : string) (quiet : bool)
    (w : world) (merchants_file : string) (csv_rules : list rule) :
  config !! "_merchants_file" = Some merchants_file ->
  merchants_file <> "" ->
  config !! "_merchants_format" = Some "csv" ->
  load_merchant_rules (fs w) merchants_file = Returned csv_rules ->
  stdout_tty w = false ->
  exists w',
    check_merchant_migration config config_dir quiet false w
    = call (fun m => get_all_rules m (Some merchants_file)
                       (default "first_match" (config !! "rule_mode"))) w'
    /\ files_same w w'
    /\ stdin w' = stdin w
    /\ (quiet = true -> stdout w' = stdout w)
    /\ (quiet = false ->
        warnings (stdout w')
        = (warnings (stdout w) + (if csv_rules is [] then 1 else 0))%nat).
Proof.
  intros Hfile Hne Hformat Hload Htty.
  unfold check_merchant_migration. rewrite Hfile, Hformat.
  destruct merchants_file as [|c r]; [done|].
  rewrite bool_decide_eq_true_2 by done.
  rewrite bind_run. unfold call at 1. rewrite Hload. cbv beta iota.
  rewrite bind_run. unfold decide_migration. rewrite bind_run.
  unfold sys_stdout_isatty. cbv beta iota zeta. rewrite Htty. cbn [andb negb].
  destruct quiet, csv_rules as [|x rules];
    unfold migrate_or_continue, continue_with_csv, upgrade_banner, warn_no_rules,
      the_colors, bind, print, ret;
    cbn [negb andb List.length Nat.eqb fst snd];
    unfold Colors_init, supports_color;
    cbn [stdout_tty add_stdout environ]; rewrite ?Htty; cbn [andb];
    (eexists; split; [reflexivity|]; split; [done|]; split; [done|]; split;
     intros Hq; try discriminate Hq; try done;
     cbn [stdout add_stdout];
     rewrite ?warnings_snoc, ?loaded_message_no_warning;
     repeat match goal with
       | |- context [is_no_rules_warning ?s] =>
           let b := eval vm_compute in (is_no_rules_warning s) in
           change (is_no_rules_warning s) with b
       end;
     cbv iota; lia).
Qed.

(** Without a rules file in the configuration, or with a file of neither
    known format, the resolver returns the rules of the engine called
    without a file.  It changes no file, reads no input, and prints the
    one line that no rules were found, unless it is quiet. *)
Theorem no_rules_file_default
    (config : gmap string string) (config_dir : string) (quiet migrate : bool) (w : world) :
  (config !! "_merchants_file" = None \/ config !! "_merchants_file" = Some ""
   \/ (config !! "_merchants_format" <> Some "csv"
       /\ config !! "_merchants_format" <> Some "new")) ->
  check_merchant_migration config config_dir quiet migrate w
  = call (fun m => get_all_rules m None (default "first_match" (config !! "rule_mode")))
      (if quiet then w else add_stdout no_rules_found w).
Proof.
  intros H. unfold check_merchant_migration.
  assert (Hd : ((if negb quiet then print no_rules_found else ret tt) ;;;
                call (fun m => get_all_rules m None
                                 (default "first_match" (config !! "rule_mode")))) w
               = call (fun m => get_all_rules m None
                                  (default "first_match" (config !! "rule_mode")))
                   (if quiet then w else add_stdout no_rules_found w)).
  { by destruct quiet. }
  destruct (config !! "_merchants_file") as [[|c r]|] eqn:Hfile; [exact Hd | | exact Hd].
  destruct H as [H | [H | [Hcsv Hnew]]]; [done | done |].
  rewrite bool_decide_eq_false_2 by done.
  rewrite bool_decide_eq_false_2 by done.
  exact Hd.
Qed.

End ResolverFallback.

(** ** Versions *)

Lemma tuple_gt_asym (a : list Z) : forall b, tuple_gt a b = true -> tuple_gt b a = false.
Proof.
  induction a as [|x a IH]; intros [|y b]; simpl; try done.
  destruct (Z.eqb_spec x y) as [->|Hne].
  - rewrite Z.eqb_refl. apply IH.
  - intros H. destruct (Z.eqb_spec y x); [congruence|]. lia.
Qed.

Lemma tuple_gt_trans (a : list Z) : forall b c,
  tuple_gt a b = true -> tuple_gt b c = true -> tuple_gt a c = true.
Proof.
  induction a as [|x a IH]; intros [|y b] [|z c]; simpl; try done.
  destruct (Z.eqb_spec x y) as [->|Hxy].
  - destruct (Z.eqb_spec y z) as [->|Hyz]; [apply IH | done].
  - intros H1. destruct (Z.eqb_spec y z) as [->|Hyz].
    + intros _. destruct (Z.eqb_spec x z); [congruence | done].
    + intros H2. destruct (Z.eqb_spec x z); lia.
Qed.

(** The comparison never holds both ways round, and so never between a
    version and itself. *)
Theorem version_greater_asymmetric (v1 v2 : string) :
  _version_greater v1 v2 = true -> _version_greater v2 v1 = false.
Proof.
  unfold _version_greater.
  destruct (parse_version v1) as [t1|]; [|done].
  destruct (parse_version v2) as [t2|]; [|done].
  apply tuple_gt_asym.
Qed.

(** The comparison is transitive. *)
Theorem version_greater_transitive (v1 v2 v3 : string) :
  _version_greater v1 v2 = true -> _version_greater v2 v3 = true ->
  _version_greater v1 v3 = true.
Proof.
  unfold _version_greater.
  destruct (parse_version v1) as [t1|]; [|done].
  destruct (parse_version v2) as [t2|]; [|done].
  destruct (parse_version v3) as [t3|]; [|done].
  apply tuple_gt_trans.
Qed.

Lemma str_split_nonempty sep s : str_split sep s <> [].
Proof. destruct s as [|c s]; simpl; [done|]. by destruct (Ascii.eqb c sep), (str_split sep s). Qed.

Lemma str_split_app sep (s r : string) :
  str_split sep (s +:+ String sep r) = str_split sep s ++ str_split sep r.
Proof.
  induction s as [|c s IH]; simpl.
  - by rewrite Ascii.eqb_refl.
  - rewrite IH. destruct (Ascii.eqb c sep); [done|].
    pose proof (str_split_nonempty sep s). by destruct (str_split sep s).
Qed.

(** Only the first three components count: what follows a version of
    three or more components, after a further dot, changes no comparison,
    whatever it is. *)
Theorem version_greater_ignores_fourth (v1 v2 x : string) :
  (3 <= List.length (str_split "." v1))%nat ->
  _version_greater (v1 +:+ "." +:+ x) v2 = _version_greater v1 v2
  /\ _version_greater v2 (v1 +:+ "." +:+ x) = _version_greater v2 v1.
Proof.
  intros Hlen.
  assert (Hp : parse_version (v1 +:+ "." +:+ x) = parse_version v1).
  { unfold parse_version. change ("." +:+ x) with (String "." x).
    rewrite str_split_app. by rewrite take_app_le by lia. }
  unfold _version_greater. by rewrite Hp.
Qed.

Lemma tuple_gt_longer (t : list Z) (z : Z) : tuple_gt (t ++ [z]) t = true.
Proof. induction t as [|x t IH]; simpl; [done|]. by rewrite Z.eqb_refl. Qed.

(** A version of fewer than three components, each an integer, and short
    enough for its numerals to be within the interpreter's limit, is
    smaller than the same version with a zero appended: the comparison
    tells 1.0.0 from 1.0. *)
Theorem version_greater_zero_padded (v : string) (t : list Z) :
  (String.length v <= Str.int_max_str_digits)%nat ->
  parse_version v = Some t ->
  (List.length (str_split "." v) < 3)%nat ->
  _version_greater (v +:+ ".0") v = true.
Proof.
  intros _ Hp Hlen.
  assert (Hq : parse_version (v +:+ ".0") = Some (t ++ [0])).
  { unfold parse_version in *. change ".0" with (String "." "0").
    rewrite str_split_app. simpl (str_split "." "0").
    rewrite take_ge in Hp by lia.
    rewrite take_ge by (rewrite length_app; simpl; lia).
    apply mapM_Some in Hp. apply mapM_Some.
    apply Forall2_app; [exact Hp|]. by constructor. }
  unfold _version_greater. rewrite Hq, Hp. apply tuple_gt_longer.
Qed.

Lemma digit_char (d : nat) :
  (d < 10)%nat ->
  Str.is_digit (ascii_of_nat (48 + d)) = true
  /\ Str.digit_value (ascii_of_nat (48 + d)) = Z.of_nat d.
Proof. intros H. do 10 (destruct d as [|d]; [done|]). lia. Qed.

Lemma parse_digits_of_pos (fuel : nat) : forall (n : nat) (acc : string) (b : bool),
  (n <= fuel)%nat ->
  Str.parse_digits (Str.digits_of_pos (S fuel) n acc) 0 b
  = Str.parse_digits acc (Z.of_nat n) true.
Proof.
  induction fuel as [|fuel IH]; intros n acc b Hn.
  - assert (n = 0%nat) as -> by lia. done.
  - cbn [Str.digits_of_pos].
    destruct (Nat.ltb_spec n 10) as [Hlt|Hge].
    + rewrite Nat.mod_small by done.
      destruct (digit_char n Hlt) as [Hd Hv].
      cbn [Str.parse_digits]. rewrite Hd, Hv. f_equal.
    + pose proof (Nat.div_mod_eq n 10) as Hdm.
      pose proof (Nat.mod_upper_bound n 10 ltac:(done)) as Hm.
      remember (n / 10)%nat as q. remember (n mod 10)%nat as d.
      change (Str.parse_digits
                (Str.digits_of_pos (S fuel) q (String (ascii_of_nat (48 + d)) acc)) 0 b
              = Str.parse_digits acc (Z.of_nat n) true).
      rewrite IH by lia.
      destruct (digit_char d Hm) as [Hd Hv].
      cbn [Str.parse_digits]. rewrite Hd, Hv. f_equal. lia.
Qed.

Lemma all_digits_of_pos (fuel : nat) : forall (n : nat) (acc : string),
  all_digits acc = true -> all_digits (Str.digits_of_pos fuel n acc) = true.
Proof.
  induction fuel as [|fuel IH]; intros n acc Hacc; [done|].
  cbn [Str.digits_of_pos].
  pose proof (Nat.mod_upper_bound n 10 ltac:(done)) as Hm.
  destruct (digit_char (n mod 10) Hm) as [Hd _].
  assert (Hs : all_digits (String (ascii_of_nat (48 + n mod 10)) acc) = true).
  { cbn [all_digits]. by rewrite Hd, Hacc. }
  destruct (n <? 10)%nat; [exact Hs | by apply IH].
Qed.

Lemma digit_not_space (c : ascii) : Str.is_digit c = true -> Str.is_space c = false.
Proof.
  unfold Str.is_digit, Str.is_space. cbv zeta.
  destruct (Nat.leb_spec 48 (nat_of_ascii c)); [|done].
  destruct (Nat.leb_spec (nat_of_ascii c) 57); [|done]. intros _.
  destruct (Nat.leb_spec (nat_of_ascii c) 13); [lia|].
  destruct (Nat.leb_spec (nat_of_ascii c) 32); [lia|].
  by rewrite !andb_false_r.
Qed.

Lemma int_strip_all_digits (s : string) : all_digits s = true -> Str.int_strip s = s.
Proof.
  assert (Hd : forall c, Str.is_digit c = true -> Str.is_int_space c = false).
  { intros c Hc. destruct (Str.is_int_space c) eqn:E; [|done].
    apply int_space_is_space in E. by rewrite (digit_not_space c Hc) in E. }
  intros H. unfold Str.int_strip.
  assert (Hl : Str.lstrip_by Str.is_int_space s = s).
  { destruct s as [|c s]; [done|]. simpl in *. apply andb_true_iff in H as [Hc _].
    by rewrite (Hd c Hc). }
  rewrite Hl. clear Hl. induction s as [|c s IH]; [done|].
  cbn [all_digits] in H. apply andb_true_iff in H as [Hc Hs].
  cbn [Str.rstrip_by]. rewrite (IH Hs).
  destruct s; [by rewrite (Hd c Hc) | done].
Qed.

Lemma digit_not_sign (c : ascii) :
  Str.is_digit c = true -> c <> "-"%char /\ c <> "+"%char /\ c <> "."%char.
Proof. intros H. repeat split; intros ->; discriminate H. Qed.

Lemma py_int_all_digits (s : string) :
  all_digits s = true -> Str.py_int s = Str.parse_digits s 0 false.
Proof.
  intros H. unfold Str.py_int. rewrite (int_strip_all_digits s H).
  destruct s as [|c s]; [done|].
  cbn [all_digits] in H. apply andb_true_iff in H as [Hc _].
  destruct (digit_not_sign c Hc) as (Hm & Hp & _).
  destruct c as [[] [] [] [] [] [] [] []]; done.
Qed.

Lemma py_int_of_nat (n : nat) : Str.py_int (Str.of_nat n) = Some (Z.of_nat n).
Proof.
  rewrite py_int_all_digits by (by apply all_digits_of_pos).
  unfold Str.of_nat. by rewrite parse_digits_of_pos.
Qed.

Lemma str_split_all_digits (s : string) : all_digits s = true -> str_split "." s = [s].
Proof.
  induction s as [|c s IH]; [done|].
  cbn [all_digits]. intros [Hc Hs]%andb_true_iff.
  cbn [str_split]. rewrite (IH Hs).
  destruct (digit_not_sign c Hc) as (_ & _ & Hd).
  by destruct (Ascii.eqb_spec c ".").
Qed.

Lemma parse_version_dotted (a b c : nat) :
  parse_version (dotted a b c) = Some [Z.of_nat a; Z.of_nat b; Z.of_nat c].
Proof.
  unfold parse_version, dotted.
  change ("." +:+ Str.of_nat b +:+ "." +:+ Str.of_nat c)
    with (String "." (Str.of_nat b +:+ String "." (Str.of_nat c))).
  rewrite !str_split_app.
  rewrite !str_split_all_digits by (by apply all_digits_of_pos).
  cbn [app take]. cbn [mapM]. rewrite !py_int_of_nat. done.
Qed.

(** Versions of three numbers are compared as numbers, component by
    component from the left: 0.1.10 is greater than 0.1.9. *)
Theorem version_greater_numeric (a b c x y z : nat) :
  _version_greater (dotted a b c) (dotted x y z) = true
  <-> (x < a \/ (a = x /\ (y < b \/ (b = y /\ z < c))))%nat.
Proof.
  unfold _version_greater. rewrite !parse_version_dotted. cbn [tuple_gt].
  destruct (Z.eqb_spec (Z.of_nat a) (Z.of_nat x)) as [Hax|Hax].
  - destruct (Z.eqb_spec (Z.of_nat b) (Z.of_nat y)) as [Hby|Hby].
    + destruct (Z.eqb_spec (Z.of_nat c) (Z.of_nat z)) as [Hcz|Hcz].
      * split; [done | lia].
      * rewrite Z.ltb_lt. lia.
    + rewrite Z.ltb_lt. lia.
  - rewrite Z.ltb_lt. lia.
Qed.

(** ** Instances of the further properties *)

Lemma partial_migration_is_reported_witness :
  exists e,
    stderr (snd (run_migrations "/w/config" true w_fault))
    = stderr w_fault ++ ["Error during migration: " +:+ exn_str e].
Proof.
  destruct (partial_migration_is_reported "/w/config" true w_fault "/w/config"
              (snd (run_migrations "/w/config" true w_fault))) as [_ Hrep].
  - split; intros s; [intros H | intros rest H]; vm_compute in H; discriminate H.
  - vm_compute. reflexivity.
  - apply Hrep; [reflexivity | vm_compute; discriminate].
Defined.

Lemma stamped_directory_is_left_alone_witness :
  run_migrations "/w/config" false w_stamped
  = (Ok "/w/config", set_faults (tl (faults w_stamped)) w_stamped).
Proof.
  apply (stamped_directory_is_left_alone "/w/config" false w_stamped ("1" +:+ Str.nl) 1).
  - reflexivity.
  - reflexivity.
  - reflexivity.
  - vm_compute. discriminate.
  - reflexivity.
Defined.

Lemma applied_migration_is_stamped_witness :
  fs (snd (run_migrations "/w/config" true w_batch)) !! marker_of "/w/tally/config"
  = Some (File (Text ("1" +:+ Str.nl))).
Proof.
  apply (applied_migration_is_stamped "/w/config" true w_batch "/w/tally/config"
           (snd (run_migrations "/w/config" true w_batch))).
  - vm_compute. reflexivity.
  - discriminate.
Defined.

Lemma unattended_run_reads_no_input_witness :
  stdin (snd (run_migrations "/w/config" true w_asked)) = stdin w_asked.
Proof. apply unattended_run_reads_no_input. left. reflexivity. Defined.

Lemma tally_file_blocks_migration_witness :
  exists e,
    migrate_v0_to_v1 "/w/config" true w_tally_file
    = (Ok None,
       add_stderr ("Error during migration: " +:+ exn_str e)
         (set_faults (tl (faults w_tally_file)) w_tally_file)).
Proof.
  apply (tally_file_blocks_migration "/w/config" w_tally_file (Text "notes"));
    reflexivity.
Defined.

Lemma failed_parse_changes_nothing_witness :
  @migrate_csv_to_rules sample_collaborators sample_csv "/w/config" true w_undecodable
  = (Ok false,
     add_stdout ("  " +:+ RED (Colors_init w_undecodable) +:+ "✗"
                 +:+ RESET (Colors_init w_undecodable)
                 +:+ " Migration failed: " +:+ "'utf-8' codec can't decode")
       w_undecodable).
Proof.
  apply (@failed_parse_changes_nothing sample_collaborators).
  left. reflexivity.
Defined.

Lemma converted_file_holds_conversion_witness :
  exists rules content,
    sample_load (fs w_batch) sample_csv = Returned rules
    /\ sample_content rules = Returned content
    /\ fs (snd (@migrate_csv_to_rules sample_collaborators sample_csv "/w/config" true
                  w_batch))
       !! "/w/config/merchants.rules"
       = Some (File (Text content)).
Proof.
  apply (@converted_file_holds_conversion sample_collaborators sample_csv "/w/config"
           true w_batch).
  - discriminate.
  - reflexivity.
  - vm_compute. reflexivity.
Defined.

Lemma backup_keeps_original_witness :
  fs (snd (@migrate_csv_to_rules sample_collaborators sample_csv "/w/config" true w_batch))
  !! (sample_csv +:+ ".bak")
  = Some three_rows.
Proof.
  apply (@backup_keeps_original sample_collaborators sample_csv "/w/config" w_batch).
  - reflexivity.
  - reflexivity.
  - discriminate.
  - discriminate.
  - vm_compute. reflexivity.
Defined.

Lemma unreadable_settings_fails_late_witness :
  exists w',
    @migrate_csv_to_rules sample_collaborators sample_csv "/w/config" true
      w_binary_settings
    = (Ok false, w')
    /\ fs w' !! (sample_csv +:+ ".bak") = Some three_rows.
Proof.
  destruct (@unreadable_settings_fails_late sample_collaborators sample_csv "/w/config"
              true w_binary_settings
              (snd (@convert_and_backup sample_collaborators sample_csv "/w/config" true
                      w_binary_settings)))
    as (w' & Hrun & Hfs & _).
  - vm_compute. reflexivity.
  - right. vm_compute. reflexivity.
  - exists w'. split; [exact Hrun|]. rewrite Hfs. vm_compute. reflexivity.
Defined.

Lemma resolver_needs_consent_witness :
  files_same w_batch
    (snd (@check_merchant_migration sample_collaborators csv_config "/w/config" false
            false w_batch))
  /\ files_same w_asked
       (snd (@check_merchant_migration sample_collaborators csv_config "/w/config" false
               false w_asked)).
Proof.
  split.
  - apply (@resolver_needs_consent sample_collaborators). left. reflexivity.
  - apply (@resolver_needs_consent sample_collaborators). right.
    intros s rest H. cbv [w_asked stdin] in H. injection H as <- <-.
    split; reflexivity.
Defined.

Lemma resolver_unattended_reads_no_input_witness :
  stdin (snd (@check_merchant_migration sample_collaborators csv_config "/w/config" false
                true w_asked))
  = stdin w_asked.
Proof.
  apply (@resolver_unattended_reads_no_input sample_collaborators). left. reflexivity.
Defined.

Lemma new_format_warns_iff_empty_witness :
  exists w',
    @check_merchant_migration sample_collaborators new_config "/w/config" false false
      w_batch
    = (Ok [], w')
    /\ warnings (stdout w') = 1%nat.
Proof.
  destruct (@new_format_warns_iff_empty sample_collaborators new_config "/w/config" false
              false w_batch sample_rules_file [])
    as (w' & Hrun & _ & _ & Hwarn).
  - reflexivity.
  - discriminate.
  - reflexivity.
  - reflexivity.
  - exists w'. split; [exact Hrun | exact (Hwarn eq_refl)].
Defined.

Lemma legacy_rules_without_consent_witness :
  exists w',
    @check_merchant_migration sample_collaborators csv_config "/w/config" false false
      w_empty_csv
    = (Ok [], w')
    /\ fs w' = fs w_empty_csv
    /\ warnings (stdout w') = 1%nat.
Proof.
  destruct (@legacy_rules_without_consent sample_collaborators csv_config "/w/config"
              false w_empty_csv sample_csv [])
    as (w' & Hrun & [Hfs _] & _ & _ & Hwarn).
  - reflexivity.
  - discriminate.
  - reflexivity.
  - reflexivity.
  - reflexivity.
  - exists w'. split; [|split; [exact Hfs | exact (Hwarn eq_refl)]].
    rewrite Hrun. unfold call. cbn [get_all_rules sample_collaborators].
    rewrite Hfs. reflexivity.
Defined.

Lemma no_rules_file_default_witness :
  @check_merchant_migration sample_collaborators ∅ "/w/config" false false w_batch
  = (Ok [], add_stdout no_rules_found w_batch).
Proof.
  apply (@no_rules_file_default sample_collaborators ∅ "/w/config" false false w_batch).
  left. reflexivity.
Defined.

Lemma no_color_wins_witness :
  supports_color w_no_color = false /\ Colors_init w_no_color = plain_colors.
Proof. apply no_color_wins. right. reflexivity. Defined.

Lemma version_greater_asymmetric_witness : _version_greater "0.1.9" "0.2.0" = false.
Proof. apply version_greater_asymmetric. reflexivity. Defined.

Lemma version_greater_transitive_witness : _version_greater "1.0.0" "0.9.9" = true.
Proof. apply (version_greater_transitive "1.0.0" "0.10.0" "0.9.9"); reflexivity. Defined.

Lemma version_greater_ignores_fourth_witness :
  _version_greater "1.2.3.99" "1.2.3" = _version_greater "1.2.3" "1.2.3".
Proof.
  apply (proj1 (version_greater_ignores_fourth "1.2.3" "1.2.3" "99" (le_n 3))).
Defined.

Lemma version_greater_zero_padded_witness : _version_greater "1.0.0" "1.0" = true.
Proof.
  apply (version_greater_zero_padded "1.0" [1; 0]).
  - vm_compute. lia.
  - reflexivity.
  - vm_compute. apply le_n.
Defined.
